(** * Resume-analysis service: the tolerant LLM-response extraction pipeline

    A shallow embedding of [main.py]: the three analysis endpoints
    ([analyze_skills], [skill_gap_analysis],
    [weekly_learning_task_generator]), the helper
    [_extract_skills_from_resume], and the pieces of the Python runtime they
    lean on ([str] methods, [json.loads], [dict.get], truthiness,
    exceptions).

    Python [str] values are sequences of Unicode code points; exceptions are
    an error type threaded through a small state-and-error monad whose state
    is the log of requests sent to the inference backend. *)

From Stdlib Require Import NArith ZArith Ascii String Bool Lia List.
Import ListNotations.

Set Implicit Arguments.

(* ===================================================================== *)
(** ** Python strings *)
(* ===================================================================== *)

(** A code point, and a [str] as the list of its code points. *)
Definition char := N.
Definition pystr := list char.

Definition chr (a : ascii) : char := N_of_ascii a.
Arguments chr a%_char : simpl never.

(** An ASCII string literal of the source, as a [pystr]. *)
Definition lit (s : string) : pystr := map chr (list_ascii_of_string s).
Arguments lit s%_string.

Definition char_eqb (a b : char) : bool := N.eqb a b.

Fixpoint pystr_eqb (a b : pystr) : bool :=
  match a, b with
  | [], [] => true
  | x :: a', y :: b' => char_eqb x y && pystr_eqb a' b'
  | _, _ => false
  end.

(** [str.isspace] on one code point: the code points CPython's
    [_PyUnicode_IsWhitespace] accepts. *)
Definition isspace (c : char) : bool :=
  ((9 <=? c) && (c <=? 13) || (28 <=? c) && (c <=? 32)
   || (c =? 133) || (c =? 160) || (c =? 5760)
   || (8192 <=? c) && (c <=? 8202)
   || (c =? 8232) || (c =? 8233) || (c =? 8239) || (c =? 8287)
   || (c =? 12288))%N.

Fixpoint lstrip (s : pystr) : pystr :=
  match s with
  | c :: t => if isspace c then lstrip t else s
  | [] => []
  end.

Definition rstrip (s : pystr) : pystr := rev (lstrip (rev s)).

(** [s.strip()] *)
Definition strip (s : pystr) : pystr := rstrip (lstrip s).

(** [s.startswith(p)] *)
Fixpoint startswith (p s : pystr) : bool :=
  match p, s with
  | [], _ => true
  | x :: p', y :: s' => char_eqb x y && startswith p' s'
  | _ :: _, [] => false
  end.

(** [s.endswith(p)] *)
Definition endswith (p s : pystr) : bool :=
  (length p <=? length s)%nat && pystr_eqb (skipn (length s - length p) s) p.

(** [s.find(c)] for a one-character needle: the least index holding [c],
    or [-1]. *)
Fixpoint find_from (i : Z) (c : char) (s : pystr) : Z :=
  match s with
  | [] => (-1)%Z
  | x :: t => if char_eqb x c then i else find_from (i + 1)%Z c t
  end.

Definition find (c : char) (s : pystr) : Z := find_from 0%Z c s.

(** [s.rfind(c)]: the greatest index holding [c], or [-1]. *)
Fixpoint rfind_from (i last : Z) (c : char) (s : pystr) : Z :=
  match s with
  | [] => last
  | x :: t => rfind_from (i + 1)%Z (if char_eqb x c then i else last) c t
  end.

Definition rfind (c : char) (s : pystr) : Z := rfind_from 0%Z (-1)%Z c s.

(** [s[a:b]] for indices that are not negative. *)
Definition slice (s : pystr) (a b : Z) : pystr :=
  firstn (Z.to_nat (b - a)) (skipn (Z.to_nat a) s).

(** [s[n:]] *)
Definition slice_from (s : pystr) (n : nat) : pystr := skipn n s.

(** [s[:-n]] *)
Definition slice_drop_last (s : pystr) (n : nat) : pystr :=
  firstn (length s - n) s.

(** [s[:n]], of a string or of a list. *)
Definition slice_to {A : Type} (s : list A) (n : nat) : list A := firstn n s.

(** [sep.join(items)] on strings. *)
Fixpoint join (sep : pystr) (items : list pystr) : pystr :=
  match items with
  | [] => []
  | [x] => x
  | x :: rest => x ++ sep ++ join sep rest
  end.

(** [c == 'x'] for a one-character literal of the source. *)
Definition is_chr (c : char) (a : ascii) : bool := char_eqb c (chr a).
Arguments is_chr c a%_char.

(* ===================================================================== *)
(** ** Python values that travel through the pipeline *)
(* ===================================================================== *)

(** What [json.loads] builds: [None], [bool], [int], [float], [str],
    [list] and [dict].  A [float] is kept as the exact decimal
    [mant * 10 ^ exp10] its literal denotes (with its sign), so no rounding is
    modelled; [NaN] and the infinities have their own constructors.  A [dict]
    is the list of its items in insertion order, keys pairwise distinct. *)
#[warnings="-register-all"]
Inductive json : Type :=
| JNull
| JBool (b : bool)
| JInt (z : Z)
| JFloat (neg : bool) (mant : N) (exp10 : Z)
| JNaN
| JInf (neg : bool)
| JStr (s : pystr)
| JArr (items : list json)
| JObj (items : list (pystr * json)).

Definition pydict := list (pystr * json).

(** [d.get(k)] as an option. *)
Fixpoint dict_lookup (d : pydict) (k : pystr) : option json :=
  match d with
  | [] => None
  | (k', v) :: d' => if pystr_eqb k' k then Some v else dict_lookup d' k
  end.

(** [d.get(k, default)] *)
Definition dict_get (d : pydict) (k : pystr) (default : json) : json :=
  match dict_lookup d k with
  | Some v => v
  | None => default
  end.

(** [d[k] = v]: an existing key keeps its place and takes the new value. *)
Fixpoint dict_set (d : pydict) (k : pystr) (v : json) : pydict :=
  match d with
  | [] => [(k, v)]
  | (k', v') :: d' =>
      if pystr_eqb k' k then (k', v) :: d' else (k', v') :: dict_set d' k v
  end.

(** [dict(pairs)] *)
Definition dict_of_pairs (pairs : list (pystr * json)) : pydict :=
  fold_left (fun d kv => dict_set d (fst kv) (snd kv)) pairs [].

(** A float literal denotes a number that rounds to zero exactly when it is
    at most half the least subnormal double, [2 ^ -1075]. *)
Definition float_rounds_to_zero (mant : N) (exp10 : Z) : bool :=
  (mant =? 0)%N
  || ((exp10 <? 0)%Z
      && (Z.of_N mant * 2 ^ 1075 <=? 10 ^ (- exp10))%Z).

(** Truth value testing ([bool(v)], [if v:], [v or w]). *)
Definition truthy (v : json) : bool :=
  match v with
  | JNull => false
  | JBool b => b
  | JInt z => negb (z =? 0)%Z
  | JFloat _ mant exp10 => negb (float_rounds_to_zero mant exp10)
  | JNaN => true
  | JInf _ => true
  | JStr s => match s with [] => false | _ => true end
  | JArr l => match l with [] => false | _ => true end
  | JObj d => match d with [] => false | _ => true end
  end.

(* ===================================================================== *)
(** ** [json.loads] *)
(* ===================================================================== *)

(** The decoder of the standard library, for [str] input with the default
    (strict) settings.  [None] stands for [json.JSONDecodeError].  The
    interpreter's resource limits (recursion depth, the cap on the digits of
    an [int] literal) are outside the model. *)

Definition is_json_ws (c : char) : bool :=
  is_chr c " " || (c =? 9)%N || (c =? 10)%N || (c =? 13)%N.

Fixpoint skip_ws (s : pystr) : pystr :=
  match s with
  | c :: t => if is_json_ws c then skip_ws t else s
  | [] => []
  end.

Definition is_digit (c : char) : bool := ((48 <=? c) && (c <=? 57))%N.

Definition hex_val (c : char) : option N :=
  if is_digit c then Some (c - 48)%N
  else if ((97 <=? c) && (c <=? 102))%N then Some (c - 87)%N
  else if ((65 <=? c) && (c <=? 70))%N then Some (c - 55)%N
  else None.

(** Four hexadecimal digits of a [\uXXXX] escape. *)
Definition hex4 (a b c d : char) : option N :=
  match hex_val a, hex_val b, hex_val c, hex_val d with
  | Some x, Some y, Some z, Some w => Some (((x * 16 + y) * 16 + z) * 16 + w)%N
  | _, _, _, _ => None
  end.

(** The double quote, code point 34. *)
Definition dquote : char := 34%N.

(** The one-character escapes. *)
Definition backslash (e : char) : option char :=
  if char_eqb e dquote then Some dquote
  else if is_chr e "\" then Some (chr "\")
  else if is_chr e "/" then Some (chr "/")
  else if is_chr e "b" then Some 8%N
  else if is_chr e "f" then Some 12%N
  else if is_chr e "n" then Some 10%N
  else if is_chr e "r" then Some 13%N
  else if is_chr e "t" then Some 9%N
  else None.

Definition is_high_surrogate (u : N) : bool := ((55296 <=? u) && (u <=? 56319))%N.
Definition is_low_surrogate (u : N) : bool := ((56320 <=? u) && (u <=? 57343))%N.

Definition starts_backslash_u (s : pystr) : bool :=
  match s with
  | x :: y :: _ => is_chr x "\" && is_chr y "u"
  | _ => false
  end.

(** [scanstring]: the input starts just after the opening quote; the result
    is the decoded string and what follows the closing quote.  [acc] holds
    the decoded characters so far, last first. *)
Fixpoint scanstring (s : pystr) (acc : pystr) : option (pystr * pystr) :=
  match s with
  | [] => None
  | c :: t =>
      if char_eqb c dquote then Some (rev acc, t)
      else if is_chr c "\" then
        match t with
        | [] => None
        | e :: t' =>
            if is_chr e "u" then
              match t' with
              | a :: b :: c1 :: d :: r =>
                  match hex4 a b c1 d with
                  | None => None
                  | Some uni =>
                      if is_high_surrogate uni && starts_backslash_u r then
                        match r with
                        | _ :: _ :: a2 :: b2 :: c2 :: d2 :: r2 =>
                            match hex4 a2 b2 c2 d2 with
                            | None => None
                            | Some uni2 =>
                                if is_low_surrogate uni2 then
                                  scanstring r2
                                    ((65536 + (uni - 55296) * 1024
                                      + (uni2 - 56320))%N :: acc)
                                else scanstring r (uni :: acc)
                            end
                        | _ => None
                        end
                      else scanstring r (uni :: acc)
                  end
              | _ => None
              end
            else
              match backslash e with
              | Some ch => scanstring t' (ch :: acc)
              | None => None
              end
        end
      else if (c <? 32)%N then None
      else scanstring t (c :: acc)
  end.

Fixpoint span_digits (s : pystr) : pystr * pystr :=
  match s with
  | c :: t =>
      if is_digit c then let (d, r) := span_digits t in (c :: d, r)
      else ([], s)
  | [] => ([], [])
  end.

Definition digits_val (d : pystr) : N :=
  fold_left (fun acc c => (acc * 10 + (c - 48))%N) d 0%N.

(** The integer part: a lone [0], or a digit from 1 to 9 and then any digits. *)
Definition match_int (s : pystr) : option (pystr * pystr) :=
  match s with
  | c :: t =>
      if is_chr c "0" then Some ([c], t)
      else if is_digit c then let (d, r) := span_digits t in Some (c :: d, r)
      else None
  | [] => None
  end.

(** The fraction: a dot and at least one digit. *)
Definition match_frac (s : pystr) : option (pystr * pystr) :=
  match s with
  | c :: t =>
      if is_chr c "." then
        match span_digits t with
        | ([], _) => None
        | (d, r) => Some (d, r)
        end
      else None
  | [] => None
  end.

(** The exponent: [e] or [E], an optional sign, at least one digit. *)
Definition match_exp (s : pystr) : option (Z * pystr) :=
  match s with
  | c :: t =>
      if is_chr c "e" || is_chr c "E" then
        let '(minus, t1) :=
          match t with
          | x :: t' =>
              if is_chr x "-" then (true, t')
              else if is_chr x "+" then (false, t')
              else (false, t)
          | [] => (false, t)
          end in
        match span_digits t1 with
        | ([], _) => None
        | (d, r) =>
            Some (if minus then (- Z.of_N (digits_val d))%Z
                  else Z.of_N (digits_val d), r)
        end
      else None
  | [] => None
  end.

(** [NUMBER_RE.match], with the conversion of the literal: an [int] when it
    has neither fraction nor exponent, a [float] otherwise. *)
Definition match_number (s : pystr) : option (json * pystr) :=
  let '(neg, s1) :=
    match s with
    | c :: t => if is_chr c "-" then (true, t) else (false, s)
    | [] => (false, s)
    end in
  match match_int s1 with
  | None => None
  | Some (ip, s2) =>
      let '(frac, s3) :=
        match match_frac s2 with
        | Some (d, r) => (Some d, r)
        | None => (None, s2)
        end in
      let '(ex, s4) :=
        match match_exp s3 with
        | Some (e, r) => (Some e, r)
        | None => (None, s3)
        end in
      match frac, ex with
      | None, None =>
          Some (JInt (if neg then (- Z.of_N (digits_val ip))%Z
                      else Z.of_N (digits_val ip)), s4)
      | _, _ =>
          let fd := match frac with Some d => d | None => [] end in
          let e := match ex with Some e => e | None => 0%Z end in
          Some (JFloat neg (digits_val (ip ++ fd))
                  (e - Z.of_nat (length fd))%Z, s4)
      end
  end.

(** [scan_once] with the loops of [JSONObject] and [JSONArray].  Each call
    spends one unit of [fuel]; [loads] supplies enough of it
    ([scan_once_fuel_irrelevant] below).  [object_loop] starts just after
    the opening quote of a key, [array_loop] at the start of an element. *)
Fixpoint scan_once (fuel : nat) (s : pystr) {struct fuel}
  : option (json * pystr) :=
  match fuel with
  | O => None
  | S fuel' =>
      match s with
      | [] => None
      | c :: t =>
          if char_eqb c dquote then
            match scanstring t [] with
            | Some (k, r) => Some (JStr k, r)
            | None => None
            end
          else if is_chr c "{" then
            match skip_ws t with
            | c1 :: t1 =>
                if is_chr c1 "}" then Some (JObj [], t1)
                else if char_eqb c1 dquote then object_loop fuel' t1 []
                else None
            | [] => None
            end
          else if is_chr c "[" then
            match skip_ws t with
            | c1 :: t1 =>
                if is_chr c1 "]" then Some (JArr [], t1)
                else array_loop fuel' (c1 :: t1) []
            | [] => None
            end
          else if is_chr c "n" && startswith (lit "null") s then
            Some (JNull, skipn 4 s)
          else if is_chr c "t" && startswith (lit "true") s then
            Some (JBool true, skipn 4 s)
          else if is_chr c "f" && startswith (lit "false") s then
            Some (JBool false, skipn 5 s)
          else
            match match_number s with
            | Some r => Some r
            | None =>
                if is_chr c "N" && startswith (lit "NaN") s then
                  Some (JNaN, skipn 3 s)
                else if is_chr c "I" && startswith (lit "Infinity") s then
                  Some (JInf false, skipn 8 s)
                else if is_chr c "-" && startswith (lit "-Infinity") s then
                  Some (JInf true, skipn 9 s)
                else None
            end
      end
  end

with object_loop (fuel : nat) (s : pystr) (pairs : list (pystr * json))
  {struct fuel} : option (json * pystr) :=
  match fuel with
  | O => None
  | S fuel' =>
      match scanstring s [] with
      | None => None
      | Some (key, s1) =>
          match skip_ws s1 with
          | c :: s2 =>
              if is_chr c ":" then
                match scan_once fuel' (skip_ws s2) with
                | None => None
                | Some (value, s3) =>
                    let pairs' := pairs ++ [(key, value)] in
                    match skip_ws s3 with
                    | d :: s4 =>
                        if is_chr d "}" then
                          Some (JObj (dict_of_pairs pairs'), s4)
                        else if is_chr d "," then
                          match skip_ws s4 with
                          | q :: s5 =>
                              if char_eqb q dquote
                              then object_loop fuel' s5 pairs'
                              else None
                          | [] => None
                          end
                        else None
                    | [] => None
                    end
                end
              else None
          | [] => None
          end
      end
  end

with array_loop (fuel : nat) (s : pystr) (values : list json)
  {struct fuel} : option (json * pystr) :=
  match fuel with
  | O => None
  | S fuel' =>
      match scan_once fuel' s with
      | None => None
      | Some (v, s1) =>
          let values' := values ++ [v] in
          match skip_ws s1 with
          | d :: s2 =>
              if is_chr d "]" then Some (JArr values', s2)
              else if is_chr d "," then array_loop fuel' (skip_ws s2) values'
              else None
          | [] => None
          end
      end
  end.

(** Fuel that covers every input of the given length. *)
Definition loads_fuel (s : pystr) : nat := 2 * length s + 2.

(** [json.loads(s)]: a byte-order mark is refused, white space around the
    document is skipped, anything else after it is an error. *)
Definition loads (s : pystr) : option json :=
  if startswith [65279%N] s then None
  else
    let s0 := skip_ws s in
    match scan_once (loads_fuel s0) s0 with
    | Some (v, r) =>
        match skip_ws r with
        | [] => Some v
        | _ :: _ => None
        end
    | None => None
    end.

(** A literal in which the apostrophe stands for the double quote, for
    writing JSON text. *)
Definition jlit (s : string) : pystr :=
  map (fun c => if is_chr c "'" then dquote else c) (lit s).
Arguments jlit s%_string.

(* ===================================================================== *)
(** ** Exceptions and the effect monad *)
(* ===================================================================== *)

(** The exceptions of the runtime and of [httpx] that the service meets.
    [TimeoutException] and [ConnectError] are kinds of [httpx.RequestError];
    [RequestError] here is any other kind.  [JSONDecodeError] is a kind of
    [ValueError]; [ValueError] here is one raised with a message. *)
Inductive pyerror : Type :=
| TimeoutException
| ConnectError
| RequestError
| JSONDecodeError
| ValueError (msg : pystr)
| AttributeError
| TypeError.

(** The [detail] of an [HTTPException]: a literal, or one of the two
    formatted messages that quote [str(e)]. *)
Inductive detail : Type :=
| Detail (s : pystr)
| ErrorOf (e : pyerror)            (* f"Error: {str(e)}" *)
| ConnectionErrorOf (e : pyerror). (* f"Ollama connection error: {str(e)}" *)

Inductive exn : Type :=
| HTTPException (status_code : Z) (d : detail)
| Other (e : pyerror).

Inductive result (A : Type) : Type :=
| Ok (a : A)
| Raise (e : exn).
Arguments Ok {A} a.
Arguments Raise {A} e.

(** What one [client.post] yields. *)
Inductive http_outcome : Type :=
| Responded (status_code : Z) (text : pystr)
| Failed (e : pyerror).

Record Response : Type := { status_code : Z; text : pystr }.

(** The inference backend: its answer to a request body, given the bodies
    it was sent before (oldest first). *)
Definition Backend := list json -> json -> http_outcome.

(** A computation that may send requests to the backend and may raise: the
    state is the log of the request bodies sent so far, oldest first. *)
Definition M (A : Type) : Type := list json -> result A * list json.

Definition ret {A} (a : A) : M A := fun log => (Ok a, log).

Definition bind {A B} (m : M A) (k : A -> M B) : M B :=
  fun log =>
    match m log with
    | (Ok a, log') => k a log'
    | (Raise e, log') => (Raise e, log')
    end.

Definition raise {A} (e : exn) : M A := fun log => (Raise e, log).

(** [try: m  except ...: h e] where [h] re-raises what no clause catches. *)
Definition try_with {A} (m : M A) (h : exn -> M A) : M A :=
  fun log =>
    match m log with
    | (Ok a, log') => (Ok a, log')
    | (Raise e, log') => h e log'
    end.

(** A pure step that may raise. *)
Definition lift {A} (r : result A) : M A := fun log => (r, log).

Declare Scope py_scope.
Delimit Scope py_scope with py.
Notation "x <- m ;; k" := (bind m (fun x => k))
  (at level 61, m at next level, right associativity) : py_scope.
Local Open Scope py_scope.

(** [await client.post(url, json=body)] *)
Definition post (backend : Backend) (body : json) : M Response :=
  fun log =>
    match backend log body with
    | Responded sc txt => (Ok {| status_code := sc; text := txt |}, log ++ [body])
    | Failed e => (Raise (Other e), log ++ [body])
    end.

(** [json.loads(s)] as a step that raises [JSONDecodeError]. *)
Definition json_loads (s : pystr) : result json :=
  match loads s with
  | Some v => Ok v
  | None => Raise (Other JSONDecodeError)
  end.

(** [v.get(k, default)]: only a [dict] has the method. *)
Definition py_get (v : json) (k : pystr) (default : json) : result json :=
  match v with
  | JObj d => Ok (dict_get d k default)
  | _ => Raise (Other AttributeError)
  end.

(** [v.strip()]: only a [str] has the method. *)
Definition py_strip (v : json) : result pystr :=
  match v with
  | JStr s => Ok (strip s)
  | _ => Raise (Other AttributeError)
  end.

(** The items that iterating over [v] yields, when all of them are [str]:
    the elements of a list, the characters of a string, the keys of a
    dict.  This is what [', '.join(v)] and the loop [for skill in v] of the
    fallback walk through; [None] stands for the [TypeError] of [join]. *)
Fixpoint all_str (l : list json) : option (list pystr) :=
  match l with
  | [] => Some []
  | JStr s :: l' =>
      match all_str l' with
      | Some r => Some (s :: r)
      | None => None
      end
  | _ :: _ => None
  end.

Definition str_items (v : json) : option (list pystr) :=
  match v with
  | JArr l => all_str l
  | JStr s => Some (map (fun c => [c]) s)
  | JObj d => Some (map fst d)
  | _ => None
  end.

(** [sep.join(v)] *)
Definition py_join (sep : pystr) (v : json) : result pystr :=
  match str_items v with
  | Some items => Ok (join sep items)
  | None => Raise (Other TypeError)
  end.

(* ===================================================================== *)
(** ** Request models *)
(* ===================================================================== *)

(** The three [BaseModel] classes; the prefix tells the fields of one class
    from the fields of another. *)
Record SkillAnalysisRequest : Type := {
  sa_resume_text : option pystr;
  sa_resume_id : option pystr;
  sa_job_description : option pystr
}.

Record SkillGapAnalysisRequest : Type := {
  sg_resume_text : option pystr;
  sg_resume_id : option pystr;
  sg_target_role : pystr
}.

Record WeeklyLearningTaskRequest : Type := {
  wl_resume_text : option pystr;
  wl_resume_id : option pystr;
  wl_missing_skills : option (list json)
}.

(** Truth value of an [Optional[str]] field. *)
Definition opt_truthy (o : option pystr) : bool :=
  match o with
  | Some (_ :: _) => true
  | _ => false
  end.

(* ===================================================================== *)
(** ** The extraction steps *)
(* ===================================================================== *)

(** Lines 137-143 of [analyze_skills]; the same statements stand at lines
    209-215, 275-281, 320-326 and 428-434. *)
Definition json_candidate (analysis_text : pystr) : pystr :=
  let first_brace := find (chr "{") analysis_text in
  let last_brace := rfind (chr "}") analysis_text in
  if negb (first_brace =? -1)%Z && negb (last_brace =? -1)%Z
     && (last_brace >? first_brace)%Z
  then slice analysis_text first_brace (last_brace + 1)%Z
  else analysis_text.

(** Lines 127-135 of [analyze_skills]. *)
Definition strip_fences (analysis_text : pystr) : pystr :=
  let t := strip analysis_text in
  let t := if startswith (lit "```json") t then slice_from t 7 else t in
  let t := if startswith (lit "```") t then slice_from t 3 else t in
  let t := if endswith (lit "```") t then slice_drop_last t 3 else t in
  strip t.

Definition NotAnObject : pyerror :=
  ValueError (lit "Response is not a JSON object").

(** The inner [try] of [analyze_skills] (lines 126-164), on the completion
    text: its [except] clause catches [json.JSONDecodeError] alone, so the
    [ValueError] of line 148 leaves it. *)
Definition analyze_extract (analysis_text : pystr) : result json :=
  let analysis_text := strip_fences analysis_text in
  let json_str := json_candidate analysis_text in
  match loads json_str with
  | None =>
      Ok (JObj [(lit "skills", JArr []);
                (lit "years_experience", JNull);
                (lit "role_suggestions", JArr []);
                (lit "error", JStr (lit "Failed to parse LLM response as JSON"));
                (lit "raw_response", JStr (slice_to analysis_text 500))])
  | Some (JObj analysis_json) =>
      Ok (JObj [(lit "skills", dict_get analysis_json (lit "skills") (JArr []));
                (lit "years_experience",
                  dict_get analysis_json (lit "years_experience") JNull);
                (lit "role_suggestions",
                  dict_get analysis_json (lit "role_suggestions") (JArr []))])
  | Some _ => Raise (Other NotAnObject)
  end.

(** The inner [try] of the other stages (lines 208-220, 274-286, 319-331,
    427-439): the candidate is parsed and one field read, and [except
    Exception] turns every failure into the default. *)
Definition field_or_default (analysis_text field : pystr) (default : json)
  : json :=
  let json_str := json_candidate analysis_text in
  match json_loads json_str with
  | Ok analysis_json =>
      match py_get analysis_json field default with
      | Ok v => v
      | Raise _ => default
      end
  | Raise _ => default
  end.

(* ===================================================================== *)
(** ** The fallback tasks *)
(* ===================================================================== *)

(** The list literal of lines 337-345 (and 445-453), with its [[:7]]. *)
Definition fallback_tasks (skill : pystr) : list pystr :=
  slice_to
    [ lit "Study " ++ skill ++ lit " fundamentals and core concepts";
      lit "Complete online " ++ skill ++ lit " tutorial or course";
      lit "Practice " ++ skill ++ lit " with hands-on exercises";
      lit "Build a small project using " ++ skill;
      lit "Read " ++ skill ++ lit " documentation and best practices";
      lit "Join " ++ skill ++ lit " community and participate in discussions";
      lit "Create a portfolio piece showcasing " ++ skill ]
    7.

(** The dict appended for one skill. *)
Definition fallback_group (skill : pystr) : json :=
  JObj [(lit "skill", JStr skill);
        (lit "tasks", JArr (map JStr (fallback_tasks skill)))].

(** [weekly_tasks.append(x)]: only a [list] has the method. *)
Definition py_append (weekly_tasks x : json) : result json :=
  match weekly_tasks with
  | JArr l => Ok (JArr (l ++ [x]))
  | _ => Raise (Other AttributeError)
  end.

(** The loop [for skill in missing_skills: weekly_tasks.append(...)]. *)
Fixpoint append_fallbacks (weekly_tasks : json) (skills : list pystr)
  : result json :=
  match skills with
  | [] => Ok weekly_tasks
  | skill :: rest =>
      match py_append weekly_tasks (fallback_group skill) with
      | Ok weekly_tasks' => append_fallbacks weekly_tasks' rest
      | Raise e => Raise e
      end
  end.

(** Lines 333-346 (and 441-454): [if not weekly_tasks:] and the loop. *)
Definition backfill (weekly_tasks : json) (skills : list pystr) : result json :=
  if negb (truthy weekly_tasks) then append_fallbacks weekly_tasks skills
  else Ok weekly_tasks.

(* ===================================================================== *)
(** ** Prompts and request bodies *)
(* ===================================================================== *)

Definition unlines (lines : list pystr) : pystr := join [10%N] lines.

(** Lines 92-102. *)
Definition analyze_prompt (resume_text : pystr) : pystr :=
  unlines
    [ lit "Analyze this resume and extract information. Return ONLY valid JSON, no other text.";
      [];
      lit "Resume:";
      resume_text;
      [];
      lit "Return JSON in this exact format:";
      lit "{";
      jlit "  'skills': ['skill1', 'skill2', ...],";
      jlit "  'years_experience': 'X years' or null,";
      jlit "  'role_suggestions': ['role1', 'role2', ...]";
      lit "}" ].

(** Lines 177-185. *)
Definition extract_prompt (resume_text : pystr) : pystr :=
  unlines
    [ lit "Analyze this resume and extract skills. Return ONLY valid JSON.";
      [];
      lit "Resume:";
      resume_text;
      [];
      lit "Return JSON:";
      lit "{";
      jlit "  'skills': ['skill1', 'skill2', ...]";
      lit "}" ].

(** Lines 242-250; [listed] is the joined skills or ['None listed']. *)
Definition gap_prompt (listed target_role : pystr) : pystr :=
  unlines
    [ lit "Compare the candidate's skills against the target role requirements and identify missing skills.";
      [];
      lit "Candidate's Skills: " ++ listed;
      lit "Target Role: " ++ target_role;
      [];
      lit "Return ONLY valid JSON:";
      lit "{";
      jlit "  'missing_skills': ['skill1', 'skill2', ...]";
      lit "}" ].

(** Lines 290-300 and 393-403; [joined] is [', '.join(missing_skills)]. *)
Definition task_prompt (joined : pystr) : pystr :=
  unlines
    [ lit "Generate 5-7 practical weekly learning tasks for each missing skill. Return ONLY valid JSON.";
      [];
      lit "Missing Skills: " ++ joined;
      [];
      lit "Return JSON:";
      lit "{";
      jlit "  'weekly_tasks': [";
      jlit "    {'skill': 'skill1', 'tasks': ['task1', 'task2', 'task3', 'task4', 'task5', 'task6', 'task7']},";
      jlit "    {'skill': 'skill2', 'tasks': ['task1', 'task2', 'task3', 'task4', 'task5']}";
      lit "  ]";
      lit "}" ].

(** The temperatures 0.3 and 0.5. *)
Definition temperature_03 : json := JFloat false 3 (-1).
Definition temperature_05 : json := JFloat false 5 (-1).

(** The [json=] argument of every [client.post]; the URL is always
    [OLLAMA_BASE_URL + "/api/generate"]. *)
Definition generate_body (model prompt : pystr) (temperature : json)
  (num_predict : Z) : json :=
  JObj [(lit "model", JStr model);
        (lit "prompt", JStr prompt);
        (lit "stream", JBool false);
        (lit "options", JObj [(lit "temperature", temperature);
                              (lit "num_predict", JInt num_predict)])].

(** The [items] of [', '.join(v)], or its [TypeError]. *)
Definition py_str_items (v : json) : result (list pystr) :=
  match str_items v with
  | Some items => Ok items
  | None => Raise (Other TypeError)
  end.

(** The clauses that close the outer [try] of each endpoint (lines 165-174,
    353-362, 461-470), in their order. *)
Definition surface_errors {A : Type} (e : exn) : M A :=
  match e with
  | Other TimeoutException =>
      raise (HTTPException 504
        (Detail (lit "Request timeout. Ollama may be slow or unresponsive.")))
  | Other ConnectError =>
      raise (HTTPException 503
        (Detail (lit "Cannot connect to Ollama service. Ensure Ollama is running at http://localhost:11434")))
  | Other RequestError => raise (HTTPException 503 (ConnectionErrorOf RequestError))
  | HTTPException _ _ => raise e
  | Other e' => raise (HTTPException 500 (ErrorOf e'))
  end.

(** [result = response.json()] and
    [analysis_text = result.get("response", "").strip()]. *)
Definition completion_text (response : Response) : result pystr :=
  match json_loads (text response) with
  | Ok result =>
      match py_get result (lit "response") (JStr []) with
      | Ok v => py_strip v
      | Raise e => Raise e
      end
  | Raise e => Raise e
  end.

Definition no_skills : pydict := [(lit "skills", JArr [])].

(** The details of the two 400 answers (lines 90 and 237; line 381). *)
Definition required_resume : pystr :=
  lit "Either resume_text or resume_id is required".
Definition required_any : pystr :=
  lit "Either resume_text, resume_id, or missing_skills must be provided".

(* ===================================================================== *)
(** ** The endpoints *)
(* ===================================================================== *)

Section Service.

(** The configured model name, the files of [RESUMES_DIR] (the text stored
    under an identifier, if any), and the backend. *)
Variable OLLAMA_MODEL : pystr.
Variable resumes : pystr -> option pystr.
Variable backend : Backend.

Definition generate (prompt : pystr) (temperature : json) (num_predict : Z)
  : M Response :=
  post backend (generate_body OLLAMA_MODEL prompt temperature num_predict).

(** The opening of each endpoint (lines 79-90, 226-237, 370-381):
    [required] is the detail of its 400. *)
Definition resolve_resume (resume_id resume_text : option pystr)
  (required : pystr) : M pystr :=
  if opt_truthy resume_id then
    match resume_id with
    | Some rid =>
        match resumes rid with
        | Some stored => ret stored
        | None => raise (HTTPException 404 (Detail (lit "Resume not found")))
        end
    | None => raise (HTTPException 404 (Detail (lit "Resume not found")))
    end
  else if opt_truthy resume_text then
    match resume_text with
    | Some t => ret t
    | None => ret []
    end
  else raise (HTTPException 400 (Detail required)).

(** [POST /analyze_skills] *)
Definition analyze_skills (request : SkillAnalysisRequest) : M json :=
  resume_text <- resolve_resume (sa_resume_id request) (sa_resume_text request)
                   required_resume ;;
  let prompt := analyze_prompt resume_text in
  try_with
    (response <- generate prompt temperature_03 800 ;;
     if negb (status_code response =? 200)%Z then
       raise (HTTPException 500
                (Detail (lit "Ollama service error: " ++ text response)))
     else
       analysis_text <- lift (completion_text response) ;;
       lift (analyze_extract analysis_text))
    surface_errors.

Definition _extract_skills_from_resume (resume_text : pystr) : M pydict :=
  let prompt := extract_prompt resume_text in
  try_with
    (response <- generate prompt temperature_03 600 ;;
     if negb (status_code response =? 200)%Z then ret no_skills
     else
       analysis_text <- lift (completion_text response) ;;
       ret [(lit "skills",
             field_or_default analysis_text (lit "skills") (JArr []))])
    (fun _ => ret no_skills).

(** The third call of the gap analysis with its fallback (lines
    289-346). *)
Definition gap_weekly_tasks (missing_skills : json) : M json :=
  if truthy missing_skills then
    skills <- lift (py_str_items missing_skills) ;;
    let task_prompt := task_prompt (join (lit ", ") skills) in
    task_response <- generate task_prompt temperature_05 1500 ;;
    weekly_tasks <-
      (if (status_code task_response =? 200)%Z then
         task_text <- lift (completion_text task_response) ;;
         ret (field_or_default task_text (lit "weekly_tasks") (JArr []))
       else ret (JArr [])) ;;
    lift (backfill weekly_tasks skills)
  else ret (JArr []).

(** [POST /skill_gap_analysis] *)
Definition skill_gap_analysis (request : SkillGapAnalysisRequest) : M json :=
  resume_text <- resolve_resume (sg_resume_id request) (sg_resume_text request)
                   required_resume ;;
  extracted_skills_data <- _extract_skills_from_resume resume_text ;;
  let extracted_skills :=
    dict_get extracted_skills_data (lit "skills") (JArr []) in
  listed <- lift (if truthy extracted_skills
                  then py_join (lit ", ") extracted_skills
                  else Ok (lit "None listed")) ;;
  let prompt := gap_prompt listed (sg_target_role request) in
  try_with
    (response <- generate prompt temperature_03 600 ;;
     if negb (status_code response =? 200)%Z then
       raise (HTTPException 500 (Detail (lit "Ollama service error")))
     else
       analysis_text <- lift (completion_text response) ;;
       let missing_skills :=
         field_or_default analysis_text (lit "missing_skills") (JArr []) in
       weekly_tasks <- gap_weekly_tasks missing_skills ;;
       ret (JObj [(lit "extracted_skills", extracted_skills);
                  (lit "missing_skills", missing_skills);
                  (lit "weekly_tasks", weekly_tasks)]))
    surface_errors.

(** [request.missing_skills or []] *)
Definition missing_or_empty (o : option (list json)) : list json :=
  match o with
  | Some l => if truthy (JArr l) then l else []
  | None => []
  end.

(** [POST /weekly_learning_task_generator] *)
Definition weekly_learning_task_generator
  (request : WeeklyLearningTaskRequest) : M json :=
  let missing_skills := missing_or_empty (wl_missing_skills request) in
  extracted_skills <-
    (if negb (truthy (JArr missing_skills)) then
       resume_text <-
         resolve_resume (wl_resume_id request) (wl_resume_text request)
           required_any ;;
       extracted_skills_data <- _extract_skills_from_resume resume_text ;;
       ret (dict_get extracted_skills_data (lit "skills") (JArr []))
     else ret (JArr [])) ;;
  if negb (truthy (JArr missing_skills)) then
    ret (JObj [(lit "extracted_skills", extracted_skills);
               (lit "missing_skills", JArr []);
               (lit "weekly_tasks", JArr [])])
  else
    skills <- lift (py_str_items (JArr missing_skills)) ;;
    let prompt := task_prompt (join (lit ", ") skills) in
    try_with
      (response <- generate prompt temperature_05 1500 ;;
       if negb (status_code response =? 200)%Z then
         raise (HTTPException 500 (Detail (lit "Ollama service error")))
       else
         analysis_text <- lift (completion_text response) ;;
         let weekly_tasks :=
           field_or_default analysis_text (lit "weekly_tasks") (JArr []) in
         weekly_tasks <- lift (backfill weekly_tasks skills) ;;
         ret (JObj [(lit "extracted_skills", extracted_skills);
                    (lit "missing_skills", JArr missing_skills);
                    (lit "weekly_tasks", weekly_tasks)]))
      surface_errors.

End Service.

(* ===================================================================== *)
(** ** Vocabulary of the statements *)
(* ===================================================================== *)

(** [p ++ "{" ++ body ++ "}" ++ q] *)
Definition framed (p body q : pystr) : pystr :=
  p ++ chr "{" :: body ++ chr "}" :: q.

(** [s] is [{body}] with text around it, none of it a [{] before or a [}]
    after. *)
Definition Framed (body s : pystr) : Prop :=
  exists p q, s = framed p body q /\ ~ In (chr "{") p /\ ~ In (chr "}") q.

(** The condition of line 140. *)
Definition has_brace_pair (s : pystr) : bool :=
  negb (find (chr "{") s =? -1)%Z && negb (rfind (chr "}") s =? -1)%Z
  && (rfind (chr "}") s >? find (chr "{") s)%Z.

(** [r] is what is left of [s] after some prefix. *)
Definition Suffix (r s : pystr) : Prop := exists c, s = c ++ r.

(** ... after a prefix that is not empty. *)
Definition PSuffix (r s : pystr) : Prop := exists c, c <> [] /\ s = c ++ r.

(** [a] occurs in [s] as a block. *)
Definition Infix (a s : pystr) : Prop := exists x y, s = x ++ a ++ y.

Definition not_container (v : json) : Prop :=
  match v with
  | JArr _ | JObj _ => False
  | _ => True
  end.

(** What a successful scan tells: something was consumed, and an object
    starts with its opening brace and ends with its closing brace. *)
Definition scan_ok (s : pystr) (v : json) (r : pystr) : Prop :=
  PSuffix r s
  /\ (forall d, v = JObj d -> exists body, s = chr "{" :: body ++ chr "}" :: r).

(** The two halves of each fallback task, around the skill name. *)
Definition fallback_templates : list (pystr * pystr) :=
  [ (lit "Study ", lit " fundamentals and core concepts");
    (lit "Complete online ", lit " tutorial or course");
    (lit "Practice ", lit " with hands-on exercises");
    (lit "Build a small project using ", []);
    (lit "Read ", lit " documentation and best practices");
    (lit "Join ", lit " community and participate in discussions");
    (lit "Create a portfolio piece showcasing ", []) ].

(** The request bodies of the four prompts. *)
Definition analyze_body (model resume_text : pystr) : json :=
  generate_body model (analyze_prompt resume_text) temperature_03 800.
Definition extract_body (model resume_text : pystr) : json :=
  generate_body model (extract_prompt resume_text) temperature_03 600.
Definition gap_body (model listed target_role : pystr) : json :=
  generate_body model (gap_prompt listed target_role) temperature_03 600.
Definition task_body (model : pystr) (skills : list pystr) : json :=
  generate_body model (task_prompt (join (lit ", ") skills)) temperature_05 1500.

(** The three result dicts. *)
Definition gap_result (extracted_skills missing_skills weekly_tasks : json)
  : json :=
  JObj [(lit "extracted_skills", extracted_skills);
        (lit "missing_skills", missing_skills);
        (lit "weekly_tasks", weekly_tasks)].

(** The result dict of [analyze_skills] for a parsed object. *)
Definition analysis_of (d : pydict) : json :=
  JObj [(lit "skills", dict_get d (lit "skills") (JArr []));
        (lit "years_experience", dict_get d (lit "years_experience") JNull);
        (lit "role_suggestions", dict_get d (lit "role_suggestions") (JArr []))].

(** The backend answers the request [body] with status 200 and a document
    whose ["response"], stripped, is [completion]. *)
Definition answers (backend : Backend) (log : list json) (body : json)
  (completion : pystr) : Prop :=
  exists txt,
    backend log body = Responded 200 txt
    /\ completion_text {| status_code := 200; text := txt |} = Ok completion.

Fixpoint prefixes (s : pystr) : list pystr :=
  match s with
  | [] => [[]]
  | c :: t => [] :: map (cons c) (prefixes t)
  end.

Fixpoint suffixes (s : pystr) : list pystr :=
  match s with
  | [] => [[]]
  | _ :: t => s :: suffixes t
  end.

(** Every block of [s], once per place it stands at. *)
Definition substrings (s : pystr) : list pystr := flat_map prefixes (suffixes s).

(** [t] runs from a [{] to a [}] and decodes to an object. *)
Definition is_object_text (t : pystr) : bool :=
  startswith (lit "{") t && endswith (lit "}") t
  && match loads t with
     | Some (JObj _) => true
     | _ => false
     end.

(** The well-formed JSON objects that occur in [s]. *)
Definition embedded_objects (s : pystr) : list pystr :=
  filter is_object_text (substrings s).

(** [m] only adds to the log, and at most [k] requests. *)
Definition Sends {A : Type} (k : nat) (m : M A) : Prop :=
  forall log, exists sent, snd (m log) = log ++ sent /\ length sent <= k.





(** The dict [analyze_skills] returns when the candidate does not decode. *)
Definition degraded (raw_response : pystr) : json :=
  JObj [(lit "skills", JArr []);
        (lit "years_experience", JNull);
        (lit "role_suggestions", JArr []);
        (lit "error", JStr (lit "Failed to parse LLM response as JSON"));
        (lit "raw_response", JStr raw_response)].

Definition not_found : exn := HTTPException 404 (Detail (lit "Resume not found")).

(* ===================================================================== *)
(** ** Backends, stores and requests to run the service on *)
(* ===================================================================== *)

(** A backend that refuses every connection. *)
Definition unreachable : Backend := fun _ _ => Failed ConnectError.

Definition service_unavailable : exn :=
  HTTPException 503
    (Detail (lit "Cannot connect to Ollama service. Ensure Ollama is running at http://localhost:11434")).

Definition no_resumes : pystr -> option pystr := fun _ => None.

(** A backend that answers every request with status 200 and the same
    document. *)
Definition always_answer (txt : pystr) : Backend := fun _ _ => Responded 200 txt.

Definition stored_resume : pystr -> option pystr :=
  fun rid => if pystr_eqb rid (lit "r-1") then Some (lit "Python developer") else None.

Definition inline_resume : SkillAnalysisRequest :=
  {| sa_resume_text := Some (lit "Python developer");
     sa_resume_id := None;
     sa_job_description := None |}.

Definition by_identifier : SkillAnalysisRequest :=
  {| sa_resume_text := None;
     sa_resume_id := Some (lit "r-1");
     sa_job_description := None |}.

Definition weekly_inline_resume : WeeklyLearningTaskRequest :=
  {| wl_resume_text := Some (lit "Python developer");
     wl_resume_id := None;
     wl_missing_skills := None |}.

Definition weekly_skills (skills : list pystr) : WeeklyLearningTaskRequest :=
  {| wl_resume_text := None;
     wl_resume_id := None;
     wl_missing_skills := Some (map JStr skills) |}.

Definition eight_tasks_for_A : pystr :=
  jlit "{'response': '{\'weekly_tasks\': [{\'skill\': \'A\', \'tasks\': [\'1\', \'2\', \'3\', \'4\', \'5\', \'6\', \'7\', \'8\']}]}'}".

Definition skills_in_order : pystr :=
  jlit "{'response': '{\'skills\': [\'SQL\', \'Python\', \'SQL\']}'}".

Definition placeholder_then_object : pystr :=
  jlit "Result for {candidate}: {'skills': ['Go']}".

(** A backend that answers the [n]-th request it is sent with the [n]-th
    document of a script, status 200, and refuses the connection once the
    script is over. *)
Definition scripted (script : list pystr) : Backend :=
  fun log _ =>
    match nth_error script (length log) with
    | Some txt => Responded 200 txt
    | None => Failed ConnectError
    end.

(** A backend that refuses the first request and answers the next ones with
    one document. *)
Definition first_call_refused (txt : pystr) : Backend :=
  fun log _ =>
    match log with
    | [] => Failed ConnectError
    | _ :: _ => Responded 200 txt
    end.

Definition gap_request : SkillGapAnalysisRequest :=
  {| sg_resume_text := Some (lit "Python developer");
     sg_resume_id := None;
     sg_target_role := lit "Data Engineer" |}.

Definition three_answers : list pystr :=
  [ jlit "{'response': '{\'skills\': [\'Python\', \'SQL\']}'}";
    jlit "{'response': 'Missing: {\'missing_skills\': [\'Spark\']}'}";
    jlit "{'response': '{\'weekly_tasks\': [{\'skill\': \'Spark\', \'tasks\': [\'Read the guide\']}]}'}" ].

(* ===================================================================== *)
(** ** The decoder at work *)
(* ===================================================================== *)

Example loads_object :
  loads (jlit "{'skills': ['Python', 'SQL'], 'n': -12, 'x': 1.50e3, 'ok': true}")
  = Some (JObj [(lit "skills", JArr [JStr (lit "Python"); JStr (lit "SQL")]);
                (lit "n", JInt (-12));
                (lit "x", JFloat false 150 1);
                (lit "ok", JBool true)]).
Proof. vm_compute. reflexivity. Qed.

Example loads_duplicate_key :
  loads (jlit "{'a': 1, 'b': 2, 'a': 3}")
  = Some (JObj [(lit "a", JInt 3); (lit "b", JInt 2)]).
Proof. vm_compute. reflexivity. Qed.

Example loads_nested :
  loads (jlit " [[], {}, [null, {'k': [ 'v\n\u00e9\ud83d\ude00' ]}]] ")
  = Some (JArr [JArr []; JObj [];
                JArr [JNull; JObj [(lit "k", JArr [JStr (lit "v" ++ [10; 233; 128512]%N)])]]]).
Proof. vm_compute. reflexivity. Qed.

Example loads_rejects :
  map loads [lit ""; jlit "{'a': 1"; lit "I cannot help with that."; lit "01";
             lit "[1,]"; jlit "{'a': 1,}"; lit "{} x"; jlit "'abc"]
  = [None; None; None; None; None; None; None; None].
Proof. vm_compute. reflexivity. Qed.

(* ===================================================================== *)
(** ** Running the monad *)
(* ===================================================================== *)

Ltac unfold_m :=
  unfold bind, ret, raise, lift, try_with, generate, post in *.

Section ServiceFacts.

Variable OLLAMA_MODEL : pystr.
Variable resumes : pystr -> option pystr.
Variable backend : Backend.


(** A request that names neither a stored resume nor a text is refused
    on the spot. *)
Lemma resolve_resume_missing (rid rt : option pystr) (required : pystr)
  (log : list json) :
  opt_truthy rid = false -> opt_truthy rt = false ->
  resolve_resume resumes rid rt required log
  = (Raise (HTTPException 400 (Detail required)), log).
Proof.
  intros Hid Ht. unfold resolve_resume. rewrite Hid, Ht. reflexivity.
Qed.

Lemma resolve_resume_log (rid rt : option pystr) (required : pystr)
  (log : list json) :
  snd (resolve_resume resumes rid rt required log) = log.
Proof.
  unfold resolve_resume.
  destruct (opt_truthy rid).
  - destruct rid as [r|]; [destruct (resumes r)|]; reflexivity.
  - destruct (opt_truthy rt); [destruct rt|]; reflexivity.
Qed.

End ServiceFacts.

(* ===================================================================== *)
(** ** Facts on strings *)
(* ===================================================================== *)

Lemma char_eqb_eq (a b : char) : char_eqb a b = true <-> a = b.
Proof. unfold char_eqb. apply N.eqb_eq. Qed.

Lemma char_eqb_neq (a b : char) : char_eqb a b = false <-> a <> b.
Proof. unfold char_eqb. apply N.eqb_neq. Qed.

Lemma pystr_eqb_eq (a b : pystr) : pystr_eqb a b = true <-> a = b.
Proof.
  revert b. induction a as [|x a IH]; intros [|y b]; simpl;
    try (split; [discriminate|discriminate]); try tauto.
  rewrite andb_true_iff, char_eqb_eq, IH. split.
  - intros [-> ->]. reflexivity.
  - intros E. injection E. auto.
Qed.

Lemma startswith_app (p s : pystr) :
  startswith p s = true <-> exists r, s = p ++ r.
Proof.
  revert s. induction p as [|x p IH]; intros s; simpl.
  - split; [exists s; reflexivity|reflexivity].
  - destruct s as [|y s].
    + split; [discriminate|intros [r E]; discriminate].
    + rewrite andb_true_iff, char_eqb_eq, IH. split.
      * intros [-> [r ->]]. exists r. reflexivity.
      * intros [r E]. injection E as -> ->. split; [reflexivity|exists r; reflexivity].
Qed.

Lemma endswith_app (p s : pystr) :
  endswith p s = true <-> exists r, s = r ++ p.
Proof.
  unfold endswith. rewrite andb_true_iff, Nat.leb_le, pystr_eqb_eq. split.
  - intros [Hle E]. remember (length s - length p) as n eqn:Hn.
    exists (firstn n s). rewrite <- E. symmetry. apply firstn_skipn.
  - intros [r ->]. rewrite length_app. split; [lia|].
    replace (length r + length p - length p) with (length r + 0) by lia.
    rewrite skipn_app, Nat.add_0_r, skipn_all. simpl.
    replace (length r - length r) with 0 by lia. reflexivity.
Qed.

Lemma find_from_app (c : char) (p r : pystr) (i : Z) :
  ~ In c p -> find_from i c (p ++ c :: r) = (i + Z.of_nat (length p))%Z.
Proof.
  revert i. induction p as [|x p IH]; intros i Hp; simpl.
  - replace (char_eqb c c) with true by (symmetry; apply char_eqb_eq; reflexivity).
    lia.
  - destruct (char_eqb x c) eqn:E.
    + apply char_eqb_eq in E. exfalso. apply Hp. left. exact E.
    + rewrite IH; [lia|]. intros H. apply Hp. right. exact H.
Qed.

Lemma rfind_from_last (c : char) (q : pystr) (i last : Z) :
  ~ In c q -> rfind_from i last c q = last.
Proof.
  revert i. induction q as [|x q IH]; intros i Hq; simpl; [reflexivity|].
  destruct (char_eqb x c) eqn:E.
  - apply char_eqb_eq in E. exfalso. apply Hq. left. exact E.
  - apply IH. intros H. apply Hq. right. exact H.
Qed.

Lemma rfind_from_app (c : char) (l q : pystr) (i last : Z) :
  ~ In c q -> rfind_from i last c (l ++ c :: q) = (i + Z.of_nat (length l))%Z.
Proof.
  revert i last. induction l as [|x l IH]; intros i last Hq; simpl.
  - replace (char_eqb c c) with true by (symmetry; apply char_eqb_eq; reflexivity).
    rewrite rfind_from_last by exact Hq. lia.
  - rewrite IH by exact Hq. lia.
Qed.

(** [find] answers [-1] or the place of the first occurrence. *)
Lemma find_from_spec (c : char) (s : pystr) (i : Z) :
  (find_from i c s = -1 /\ ~ In c s)%Z
  \/ exists p r, s = p ++ c :: r /\ ~ In c p
                 /\ find_from i c s = (i + Z.of_nat (length p))%Z.
Proof.
  destruct (in_dec N.eq_dec c s) as [Hin|Hout].
  - right.
    assert (exists p r, s = p ++ c :: r /\ ~ In c p) as (p & r & -> & Hp).
    { induction s as [|x s IH]; [destruct Hin|].
      destruct (N.eq_dec x c) as [->|Hne].
      - exists [], s. split; [reflexivity|intros []].
      - destruct Hin as [E|Hin]; [contradiction|].
        destruct (IH Hin) as (p & r & -> & Hp).
        exists (x :: p), r. split; [reflexivity|].
        intros [H|H]; [contradiction|exact (Hp H)]. }
    exists p, r. repeat split; [exact Hp|]. apply find_from_app. exact Hp.
  - left. split; [|exact Hout]. revert i. induction s as [|x s IH]; intros i.
    + reflexivity.
    + simpl. destruct (char_eqb x c) eqn:E.
      * apply char_eqb_eq in E. exfalso. apply Hout. left. exact E.
      * apply IH. intros H. apply Hout. right. exact H.
Qed.

Lemma rfind_from_spec (c : char) (s : pystr) (i : Z) :
  (rfind_from i (-1) c s = -1 /\ ~ In c s)%Z
  \/ exists l q, s = l ++ c :: q /\ ~ In c q
                 /\ rfind_from i (-1) c s = (i + Z.of_nat (length l))%Z.
Proof.
  destruct (in_dec N.eq_dec c s) as [Hin|Hout].
  - right.
    assert (exists l q, s = l ++ c :: q /\ ~ In c q) as (l & q & -> & Hq).
    { induction s as [|x s IH]; [destruct Hin|].
      destruct (in_dec N.eq_dec c s) as [Hs|Hs].
      - destruct (IH Hs) as (l & q & -> & Hq).
        exists (x :: l), q. split; [reflexivity|exact Hq].
      - destruct Hin as [->|Hin]; [|contradiction].
        exists [], s. split; [reflexivity|exact Hs]. }
    exists l, q. repeat split; [exact Hq|]. apply rfind_from_app. exact Hq.
  - left. split; [|exact Hout]. apply rfind_from_last. exact Hout.
Qed.

(* ===================================================================== *)
(** ** The candidate between the first [{] and the last [}] *)
(* ===================================================================== *)

Lemma json_candidate_unfold (s : pystr) :
  json_candidate s
  = if has_brace_pair s
    then slice s (find (chr "{") s) (rfind (chr "}") s + 1)%Z
    else s.
Proof. reflexivity. Qed.

Lemma find_framed (p body q : pystr) :
  ~ In (chr "{") p ->
  find (chr "{") (framed p body q) = Z.of_nat (length p).
Proof.
  intros Hp. unfold find, framed. rewrite find_from_app by exact Hp. lia.
Qed.

Lemma rfind_framed (p body q : pystr) :
  ~ In (chr "}") q ->
  rfind (chr "}") (framed p body q) = Z.of_nat (length p + 1 + length body).
Proof.
  intros Hq. unfold rfind, framed.
  replace (p ++ chr "{" :: body ++ chr "}" :: q)
    with ((p ++ chr "{" :: body) ++ chr "}" :: q)
    by (rewrite <- app_assoc; reflexivity).
  rewrite rfind_from_app by exact Hq.
  rewrite length_app. simpl length. lia.
Qed.

Lemma has_brace_pair_framed (p body q : pystr) :
  ~ In (chr "{") p -> ~ In (chr "}") q ->
  has_brace_pair (framed p body q) = true.
Proof.
  intros Hp Hq. unfold has_brace_pair.
  rewrite find_framed, rfind_framed by assumption.
  rewrite !andb_true_iff, !negb_true_iff, !Z.eqb_neq, Z.gtb_lt. lia.
Qed.

Lemma slice_middle (p m q : pystr) :
  slice (p ++ m ++ q) (Z.of_nat (length p)) (Z.of_nat (length p + length m))
  = m.
Proof.
  unfold slice. rewrite Nat2Z.id.
  replace (Z.to_nat (Z.of_nat (length p + length m) - Z.of_nat (length p)))
    with (length m) by lia.
  rewrite skipn_app, skipn_all, Nat.sub_diag.
  change (skipn 0 (m ++ q)) with (m ++ q). rewrite app_nil_l.
  rewrite firstn_app, firstn_all, Nat.sub_diag.
  change (firstn 0 q) with (@nil char). apply app_nil_r.
Qed.

Lemma framed_middle (p body q : pystr) :
  framed p body q = p ++ (chr "{" :: body ++ [chr "}"]) ++ q.
Proof.
  unfold framed. rewrite <- app_comm_cons, <- app_assoc. reflexivity.
Qed.

(** On framed text the candidate is the framed object text. *)
Lemma json_candidate_framed (p body q : pystr) :
  ~ In (chr "{") p -> ~ In (chr "}") q ->
  json_candidate (framed p body q) = chr "{" :: body ++ [chr "}"].
Proof.
  intros Hp Hq. rewrite json_candidate_unfold.
  rewrite has_brace_pair_framed, find_framed, rfind_framed by assumption.
  rewrite framed_middle.
  replace (Z.of_nat (length p + 1 + length body) + 1)%Z
    with (Z.of_nat (length p + length (chr "{" :: body ++ [chr "}"]))).
  - apply slice_middle.
  - rewrite length_cons, length_app, length_cons, length_nil. lia.
Qed.

Lemma json_candidate_Framed (body s : pystr) :
  Framed body s -> json_candidate s = chr "{" :: body ++ [chr "}"].
Proof.
  intros (p & q & -> & Hp & Hq). apply json_candidate_framed; assumption.
Qed.

(** Text in which a [{] comes before the last [}] is framed. *)
Lemma has_brace_pair_Framed (s : pystr) :
  has_brace_pair s = true -> exists body, Framed body s.
Proof.
  unfold has_brace_pair, find, rfind.
  rewrite !andb_true_iff, !negb_true_iff, !Z.eqb_neq, Z.gtb_lt.
  intros [[Hf Hl] Hlt].
  destruct (find_from_spec (chr "{") s 0) as [[E _]|(p & r & Es & Hp & Ef)];
    [contradiction|].
  destruct (rfind_from_spec (chr "}") s 0) as [[E _]|(l & q & El & Hq & Er)];
    [contradiction|].
  rewrite Ef, Er in Hlt.
  assert (Hlen : length p < length l) by lia.
  assert (E : p ++ chr "{" :: r = l ++ chr "}" :: q) by congruence.
  apply app_eq_app in E. destruct E as [m [[E1 E2]|[E1 E2]]].
  - rewrite E1, length_app in Hlen. lia.
  - destruct m as [|x m].
    + rewrite app_nil_r in E1. rewrite E1 in Hlen. lia.
    + simpl in E2. injection E2 as Ex Er'. subst x.
      exists m, p, q. split; [|split; assumption].
      unfold framed. rewrite Es, Er'. reflexivity.
Qed.

(** *** Stripping white space and fences keeps the frame *)

Lemma lstrip_keeps (a x : pystr) (c : char) :
  isspace c = false ->
  exists a', lstrip (a ++ c :: x) = a' ++ c :: x /\ incl a' a.
Proof.
  intros Hc. induction a as [|y a IH].
  - exists []. split; [|apply incl_refl]. simpl. rewrite Hc. reflexivity.
  - simpl. destruct (isspace y).
    + destruct IH as (a' & E & Hincl). exists a'. split; [exact E|].
      apply incl_tl. exact Hincl.
    + exists (y :: a). split; [reflexivity|apply incl_refl].
Qed.

Lemma Framed_lstrip (body s : pystr) : Framed body s -> Framed body (lstrip s).
Proof.
  intros (p & q & -> & Hp & Hq). unfold framed.
  destruct (lstrip_keeps p (body ++ chr "}" :: q) (chr "{") eq_refl)
    as (p' & E & Hincl).
  exists p', q. split; [exact E|]. split; [|exact Hq].
  intros H. apply Hp. apply Hincl. exact H.
Qed.

Lemma rev_framed (p body q : pystr) :
  rev (framed p body q) = rev q ++ chr "}" :: rev body ++ chr "{" :: rev p.
Proof.
  unfold framed. rewrite rev_app_distr. cbn [rev].
  rewrite rev_app_distr. cbn [rev]. rewrite <- !app_assoc. reflexivity.
Qed.

Lemma rev_framed_back (p body q : pystr) :
  rev (rev q ++ chr "}" :: rev body ++ chr "{" :: rev p) = framed p body q.
Proof. rewrite <- rev_framed. apply rev_involutive. Qed.

Lemma Framed_rstrip (body s : pystr) : Framed body s -> Framed body (rstrip s).
Proof.
  intros (p & q & -> & Hp & Hq). unfold rstrip. rewrite rev_framed.
  destruct (lstrip_keeps (rev q) (rev body ++ chr "{" :: rev p) (chr "}") eq_refl)
    as (q' & E & Hincl).
  rewrite E. exists p, (rev q'). split.
  - rewrite <- (rev_involutive q') at 1. apply rev_framed_back.
  - split; [exact Hp|]. intros H. apply Hq.
    apply in_rev. apply Hincl. apply in_rev in H. exact H.
Qed.

Lemma Framed_strip (body s : pystr) : Framed body s -> Framed body (strip s).
Proof. intros H. apply Framed_rstrip, Framed_lstrip, H. Qed.

Lemma skipn_length_app {A : Type} (pre r : list A) :
  skipn (length pre) (pre ++ r) = r.
Proof. rewrite skipn_app, skipn_all, Nat.sub_diag. reflexivity. Qed.

Lemma Framed_drop_prefix (body s pre : pystr) :
  Framed body s -> startswith pre s = true -> ~ In (chr "{") pre ->
  Framed body (slice_from s (length pre)).
Proof.
  intros (p & q & -> & Hp & Hq) Hs Hpre. apply startswith_app in Hs.
  destruct Hs as [r E]. unfold slice_from. rewrite E, skipn_length_app.
  unfold framed in E. symmetry in E. apply app_eq_app in E.
  destruct E as [l [[E1 E2]|[E1 E2]]].
  - destruct l as [|x l].
    + simpl in E2. subst r. exists [], q. split; [reflexivity|].
      split; [intros []|exact Hq].
    + injection E2 as Ex _. exfalso. apply Hpre. rewrite E1.
      apply in_or_app. right. left. symmetry. exact Ex.
  - subst r. exists l, q. split; [reflexivity|]. split; [|exact Hq].
    intros H. apply Hp. rewrite E1. apply in_or_app. right. exact H.
Qed.

Lemma Framed_drop_suffix (body s suf : pystr) :
  Framed body s -> endswith suf s = true -> ~ In (chr "}") suf ->
  Framed body (slice_drop_last s (length suf)).
Proof.
  intros (p & q & -> & Hp & Hq) Hs Hsuf. apply endswith_app in Hs.
  destruct Hs as [r E]. unfold slice_drop_last. rewrite E.
  rewrite length_app, Nat.add_sub, firstn_app, firstn_all, Nat.sub_diag.
  change (firstn 0 suf) with (@nil char). rewrite app_nil_r.
  unfold framed in E.
  replace (p ++ chr "{" :: body ++ chr "}" :: q)
    with ((p ++ chr "{" :: body) ++ chr "}" :: q) in E
    by (rewrite <- app_assoc; reflexivity).
  symmetry in E. apply app_eq_app in E.
  destruct E as [l [[E1 E2]|[E1 E2]]].
  - destruct l as [|x l].
    + simpl in E2. exfalso. apply Hsuf. rewrite <- E2. left. reflexivity.
    + injection E2 as Ex Eq. subst x.
      exists p, l. split.
      * rewrite E1. unfold framed. rewrite <- app_assoc. reflexivity.
      * split; [exact Hp|]. intros H. apply Hq. rewrite Eq.
        apply in_or_app. left. exact H.
  - exfalso. apply Hsuf. rewrite E2. apply in_or_app. right. left. reflexivity.
Qed.

Lemma Framed_strip_fences (body s : pystr) :
  Framed body s -> Framed body (strip_fences s).
Proof.
  intros H. unfold strip_fences. apply Framed_strip.
  apply Framed_strip in H.
  assert (H1 : Framed body
                 (if startswith (lit "```json") (strip s)
                  then slice_from (strip s) 7 else strip s)).
  { destruct (startswith (lit "```json") (strip s)) eqn:E; [|exact H].
    apply (Framed_drop_prefix (lit "```json") H E).
    cbv. intuition discriminate. }
  remember (if startswith (lit "```json") (strip s)
            then slice_from (strip s) 7 else strip s) as t1.
  assert (H2 : Framed body
                 (if startswith (lit "```") t1 then slice_from t1 3 else t1)).
  { destruct (startswith (lit "```") t1) eqn:E; [|exact H1].
    apply (Framed_drop_prefix (lit "```") H1 E).
    cbv. intuition discriminate. }
  remember (if startswith (lit "```") t1 then slice_from t1 3 else t1) as t2.
  destruct (endswith (lit "```") t2) eqn:E; [|exact H2].
  apply (Framed_drop_suffix (lit "```") H2 E).
  cbv. intuition discriminate.
Qed.

(** Stripping fences never changes what a framed text yields. *)
Lemma json_candidate_strip_fences (body s : pystr) :
  Framed body s -> json_candidate (strip_fences s) = json_candidate s.
Proof.
  intros H. rewrite (json_candidate_Framed H).
  apply json_candidate_Framed, Framed_strip_fences, H.
Qed.

(* ===================================================================== *)
(** ** Facts on the decoder *)
(* ===================================================================== *)

Lemma Suffix_refl (s : pystr) : Suffix s s.
Proof. exists []. reflexivity. Qed.

Lemma Suffix_cons (x : char) (r s : pystr) : Suffix r s -> Suffix r (x :: s).
Proof. intros [c ->]. exists (x :: c). reflexivity. Qed.

Lemma Suffix_trans (a b c : pystr) : Suffix a b -> Suffix b c -> Suffix a c.
Proof. intros [x ->] [y ->]. exists (y ++ x). apply app_assoc. Qed.

Lemma Suffix_length (r s : pystr) : Suffix r s -> length r <= length s.
Proof. intros [c ->]. rewrite length_app. lia. Qed.

Lemma PSuffix_Suffix (r s : pystr) : PSuffix r s -> Suffix r s.
Proof. intros (c & _ & E). exists c. exact E. Qed.

Lemma Suffix_tail (x : char) (r s : pystr) : Suffix (x :: r) s -> PSuffix r s.
Proof.
  intros [c ->]. exists (c ++ [x]). split.
  - destruct c; discriminate.
  - rewrite <- app_assoc. reflexivity.
Qed.

Lemma PSuffix_length (r s : pystr) : PSuffix r s -> length r < length s.
Proof.
  intros (c & Hc & ->). rewrite length_app.
  destruct c; [contradiction|simpl; lia].
Qed.

Lemma PSuffix_step (x : char) (s : pystr) : PSuffix s (x :: s).
Proof. exists [x]. split; [discriminate|reflexivity]. Qed.

Lemma PSuffix_cons (x : char) (r s : pystr) : PSuffix r s -> PSuffix r (x :: s).
Proof.
  intros (c & _ & ->). exists (x :: c). split; [discriminate|reflexivity].
Qed.

Lemma PSuffix_Suffix_trans (a b c : pystr) :
  PSuffix a b -> Suffix b c -> PSuffix a c.
Proof.
  intros (x & Hx & ->) [y ->]. exists (y ++ x). split.
  - intros E. apply app_eq_nil in E. tauto.
  - apply app_assoc.
Qed.

Lemma Suffix_PSuffix_trans (a b c : pystr) :
  Suffix a b -> PSuffix b c -> PSuffix a c.
Proof.
  intros [x ->] (y & Hy & ->). exists (y ++ x). split.
  - intros E. apply app_eq_nil in E. tauto.
  - apply app_assoc.
Qed.

Lemma PSuffix_trans (a b c : pystr) : PSuffix a b -> PSuffix b c -> PSuffix a c.
Proof. intros H H'. exact (PSuffix_Suffix_trans H (PSuffix_Suffix H')). Qed.

Lemma skip_ws_Suffix (s : pystr) : Suffix (skip_ws s) s.
Proof.
  induction s as [|c s IH]; simpl.
  - apply Suffix_refl.
  - destruct (is_json_ws c); [apply Suffix_cons, IH|apply Suffix_refl].
Qed.

Lemma skip_ws_eq_Suffix (s r : pystr) : skip_ws s = r -> Suffix r s.
Proof. intros <-. apply skip_ws_Suffix. Qed.

Lemma is_chr_eq (c : char) (a : ascii) : is_chr c a = true -> c = chr a.
Proof. apply char_eqb_eq. Qed.

Create HintDb suffix.
#[local] Hint Resolve Suffix_refl Suffix_cons PSuffix_step PSuffix_cons
  PSuffix_Suffix skip_ws_Suffix skip_ws_eq_Suffix : suffix.

(** Destructs, one after the other, what the matches of [H] look at. *)
Ltac break_match H :=
  repeat (match type of H with
          | context [match ?x with _ => _ end] => destruct x eqn:?
          end; try discriminate).

Lemma scanstring_PSuffix_bounded (n : nat) :
  forall s acc k r,
    length s <= n -> scanstring s acc = Some (k, r) -> PSuffix r s.
Proof.
  induction n as [|n IH]; intros s acc k r Hlen H.
  - destruct s; [discriminate|simpl in Hlen; lia].
  - destruct s as [|c t]; [discriminate|].
    cbn [scanstring] in H.
    break_match H; subst; simpl in Hlen;
      try (injection H as <- <-; apply PSuffix_step);
      (apply IH in H; [repeat (first [exact H | apply PSuffix_cons])|simpl; lia]).
Qed.

Lemma scanstring_PSuffix (s acc k r : pystr) :
  scanstring s acc = Some (k, r) -> PSuffix r s.
Proof. apply (@scanstring_PSuffix_bounded (length s)). apply Nat.le_refl. Qed.

Lemma span_digits_Suffix (s d r : pystr) : span_digits s = (d, r) -> Suffix r s.
Proof.
  revert d r. induction s as [|c s IH]; intros d r H; simpl in H.
  - injection H as <- <-. apply Suffix_refl.
  - destruct (is_digit c).
    + destruct (span_digits s) as [d' r'] eqn:E. injection H as <- <-.
      apply Suffix_cons. exact (IH _ _ eq_refl).
    + injection H as <- <-. apply Suffix_refl.
Qed.

Lemma match_int_PSuffix (s ip r : pystr) :
  match_int s = Some (ip, r) -> PSuffix r s.
Proof.
  unfold match_int. intros H. break_match H; injection H as <- <-.
  - apply PSuffix_step.
  - eapply Suffix_PSuffix_trans; [eapply span_digits_Suffix; eassumption|].
    apply PSuffix_step.
Qed.

Lemma match_frac_Suffix (s d r : pystr) :
  match_frac s = Some (d, r) -> Suffix r s.
Proof.
  unfold match_frac. intros H. break_match H; injection H as <- <-.
  apply Suffix_cons. eapply span_digits_Suffix; eassumption.
Qed.

Lemma match_exp_Suffix (s : pystr) (e : Z) (r : pystr) :
  match_exp s = Some (e, r) -> Suffix r s.
Proof.
  unfold match_exp. intros H.
  destruct s as [|c t]; [discriminate|].
  destruct (is_chr c "e" || is_chr c "E"); [|discriminate].
  match type of H with
  | context [let '(_, _) := ?sign in _] => destruct sign as [minus t1] eqn:Esign
  end.
  assert (Ht1 : Suffix t1 t).
  { destruct t as [|x t'].
    - injection Esign as E1 E2; subst. apply Suffix_refl.
    - destruct (is_chr x "-"); [injection Esign as E1 E2; subst; auto with suffix|].
      destruct (is_chr x "+"); injection Esign as E1 E2; subst; auto with suffix. }
  destruct (span_digits t1) as [d r'] eqn:Ed.
  destruct d; [discriminate|]. injection H as E1 E2; subst.
  apply Suffix_cons. apply span_digits_Suffix in Ed.
  exact (Suffix_trans Ed Ht1).
Qed.

Lemma match_number_PSuffix (s : pystr) (v : json) (r : pystr) :
  match_number s = Some (v, r) -> PSuffix r s /\ not_container v.
Proof.
  unfold match_number. intros H.
  match type of H with
  | context [let '(_, _) := ?sign in _] => destruct sign as [neg s1] eqn:Esign
  end.
  assert (Hs1 : Suffix s1 s).
  { destruct s as [|c t].
    - injection Esign as E1 E2; subst. apply Suffix_refl.
    - destruct (is_chr c "-"); injection Esign as E1 E2; subst; auto with suffix. }
  destruct (match_int s1) as [[ip s2]|] eqn:Eint; [|discriminate].
  apply match_int_PSuffix in Eint.
  match type of H with
  | context [let '(_, _) := ?fr in _] => destruct fr as [frac s3] eqn:Efrac
  end.
  assert (Hs3 : Suffix s3 s2).
  { destruct (match_frac s2) as [[d r']|] eqn:E.
    - injection Efrac as E1 E2; subst. eapply match_frac_Suffix, E.
    - injection Efrac as E1 E2; subst. apply Suffix_refl. }
  match type of H with
  | context [let '(_, _) := ?m in _] => destruct m as [ex s4] eqn:Eexp
  end.
  assert (Hs4 : Suffix s4 s3).
  { destruct (match_exp s3) as [[e' r']|] eqn:E.
    - injection Eexp as E1 E2; subst. eapply match_exp_Suffix, E.
    - injection Eexp as E1 E2; subst. apply Suffix_refl. }
  assert (Hr : PSuffix s4 s).
  { eapply PSuffix_Suffix_trans; [|exact Hs1].
    eapply Suffix_PSuffix_trans; [|exact Eint].
    exact (Suffix_trans Hs4 Hs3). }
  destruct frac, ex; injection H as <- <-; split; try exact Hr; exact I.
Qed.

Lemma startswith_skipn_PSuffix (pre s : pystr) :
  startswith pre s = true -> pre <> [] -> PSuffix (skipn (length pre) s) s.
Proof.
  intros H Hne. apply startswith_app in H. destruct H as [r ->].
  rewrite skipn_length_app. exists pre. split; [exact Hne|reflexivity].
Qed.

Lemma scan_ok_plain (s : pystr) (v : json) (r : pystr) :
  PSuffix r s -> (forall d, v <> JObj d) -> scan_ok s v r.
Proof.
  intros H Hv. split; [exact H|]. intros d E. destruct (Hv d E).
Qed.

Lemma scan_ok_object (t : pystr) (v : json) (r : pystr) :
  Suffix (chr "}" :: r) t -> scan_ok (chr "{" :: t) v r.
Proof.
  intros H. split.
  - apply PSuffix_cons, Suffix_tail with (x := chr "}"), H.
  - intros d _. destruct H as [body ->]. exists body. reflexivity.
Qed.

Lemma scan_facts (n : nat) :
  (forall s v r, scan_once n s = Some (v, r) -> scan_ok s v r)
  /\ (forall s pairs v r,
        object_loop n s pairs = Some (v, r) -> Suffix (chr "}" :: r) s)
  /\ (forall s vs v r,
        array_loop n s vs = Some (v, r) -> PSuffix r s /\ exists l, v = JArr l).
Proof.
  induction n as [|n (IHs & IHo & IHa)].
  - repeat split; intros; discriminate.
  - split; [|split].
    + intros s v r H. destruct s as [|c t]; [discriminate|].
      cbn [scan_once] in H.
      destruct (char_eqb c dquote).
      { destruct (scanstring t []) as [[k r']|] eqn:E; [|discriminate].
        injection H as <- <-. apply scanstring_PSuffix in E.
        apply scan_ok_plain; [auto with suffix|discriminate]. }
      destruct (is_chr c "{") eqn:Eb.
      { apply is_chr_eq in Eb. subst c. apply scan_ok_object.
        destruct (skip_ws t) as [|c1 t1] eqn:Ews; [discriminate|].
        apply skip_ws_eq_Suffix in Ews.
        destruct (is_chr c1 "}") eqn:E1.
        - apply is_chr_eq in E1. subst c1. injection H as <- <-. exact Ews.
        - destruct (char_eqb c1 dquote); [|discriminate].
          apply IHo in H. refine (Suffix_trans H _).
          exact (PSuffix_Suffix (Suffix_tail Ews)). }
      destruct (is_chr c "[").
      { destruct (skip_ws t) as [|c1 t1] eqn:Ews; [discriminate|].
        apply skip_ws_eq_Suffix in Ews.
        destruct (is_chr c1 "]").
        - injection H as <- <-.
          apply scan_ok_plain; [|discriminate].
          apply PSuffix_cons. exact (Suffix_tail Ews).
        - apply IHa in H. destruct H as [H [l ->]].
          apply scan_ok_plain; [|discriminate].
          apply PSuffix_cons. exact (PSuffix_Suffix_trans H Ews). }
      destruct (is_chr c "n" && startswith (lit "null") (c :: t)) eqn:E1.
      { apply andb_true_iff in E1. destruct E1 as [_ E1].
        injection H as <- <-. apply scan_ok_plain; [|discriminate].
        exact (@startswith_skipn_PSuffix (lit "null") _ E1 ltac:(discriminate)). }
      destruct (is_chr c "t" && startswith (lit "true") (c :: t)) eqn:E2.
      { apply andb_true_iff in E2. destruct E2 as [_ E2].
        injection H as <- <-. apply scan_ok_plain; [|discriminate].
        exact (@startswith_skipn_PSuffix (lit "true") _ E2 ltac:(discriminate)). }
      destruct (is_chr c "f" && startswith (lit "false") (c :: t)) eqn:E3.
      { apply andb_true_iff in E3. destruct E3 as [_ E3].
        injection H as <- <-. apply scan_ok_plain; [|discriminate].
        exact (@startswith_skipn_PSuffix (lit "false") _ E3 ltac:(discriminate)). }
      destruct (match_number (c :: t)) as [[v' r']|] eqn:En.
      { injection H as <- <-. apply match_number_PSuffix in En.
        destruct En as [Hr Hv]. apply scan_ok_plain; [exact Hr|].
        intros d ->. exact Hv. }
      destruct (is_chr c "N" && startswith (lit "NaN") (c :: t)) eqn:E4.
      { apply andb_true_iff in E4. destruct E4 as [_ E4].
        injection H as <- <-. apply scan_ok_plain; [|discriminate].
        exact (@startswith_skipn_PSuffix (lit "NaN") _ E4 ltac:(discriminate)). }
      destruct (is_chr c "I" && startswith (lit "Infinity") (c :: t)) eqn:E5.
      { apply andb_true_iff in E5. destruct E5 as [_ E5].
        injection H as <- <-. apply scan_ok_plain; [|discriminate].
        exact (@startswith_skipn_PSuffix (lit "Infinity") _ E5 ltac:(discriminate)). }
      destruct (is_chr c "-" && startswith (lit "-Infinity") (c :: t)) eqn:E6;
        [|discriminate].
      apply andb_true_iff in E6. destruct E6 as [_ E6].
      injection H as <- <-. apply scan_ok_plain; [|discriminate].
      exact (@startswith_skipn_PSuffix (lit "-Infinity") _ E6 ltac:(discriminate)).
    + intros s pairs v r H. cbn [object_loop] in H.
      destruct (scanstring s []) as [[key s1]|] eqn:Ek; [|discriminate].
      apply scanstring_PSuffix, PSuffix_Suffix in Ek.
      destruct (skip_ws s1) as [|c s2] eqn:E1; [discriminate|].
      apply skip_ws_eq_Suffix, Suffix_tail, PSuffix_Suffix in E1.
      destruct (is_chr c ":"); [|discriminate].
      destruct (scan_once n (skip_ws s2)) as [[value s3]|] eqn:Ev; [|discriminate].
      apply IHs in Ev. destruct Ev as [Ev _]. apply PSuffix_Suffix in Ev.
      pose proof (skip_ws_Suffix s2) as E2.
      assert (Hs3 : Suffix s3 s).
      { exact (Suffix_trans (Suffix_trans (Suffix_trans Ev E2) E1) Ek). }
      destruct (skip_ws s3) as [|d s4] eqn:E3; [discriminate|].
      apply skip_ws_eq_Suffix in E3.
      destruct (is_chr d "}") eqn:Ed.
      { apply is_chr_eq in Ed. subst d. injection H as <- <-.
        exact (Suffix_trans E3 Hs3). }
      destruct (is_chr d ","); [|discriminate].
      destruct (skip_ws s4) as [|q s5] eqn:E4; [discriminate|].
      apply skip_ws_eq_Suffix, Suffix_tail, PSuffix_Suffix in E4.
      destruct (char_eqb q dquote); [|discriminate].
      apply IHo in H.
      apply Suffix_tail, PSuffix_Suffix in E3.
      exact (Suffix_trans (Suffix_trans (Suffix_trans H E4) E3) Hs3).
    + intros s vs v r H. cbn [array_loop] in H.
      destruct (scan_once n s) as [[v0 s1]|] eqn:Ev; [|discriminate].
      apply IHs in Ev. destruct Ev as [Ev _].
      destruct (skip_ws s1) as [|d s2] eqn:E1; [discriminate|].
      apply skip_ws_eq_Suffix, Suffix_tail in E1.
      destruct (is_chr d "]").
      { injection H as <- <-. split; [|eexists; reflexivity].
        exact (PSuffix_trans E1 Ev). }
      destruct (is_chr d ","); [|discriminate].
      apply IHa in H. destruct H as [H Hv]. split; [|exact Hv].
      refine (PSuffix_trans _ Ev). refine (PSuffix_trans _ E1).
      exact (PSuffix_Suffix_trans H (skip_ws_Suffix s2)).
Qed.

Lemma skip_ws_length (s : pystr) : length (skip_ws s) <= length s.
Proof. apply Suffix_length, skip_ws_Suffix. Qed.

Lemma skip_ws_eq_length (s r : pystr) : skip_ws s = r -> length r <= length s.
Proof. intros <-. apply skip_ws_length. Qed.

Lemma scanstring_length (s acc k r : pystr) :
  scanstring s acc = Some (k, r) -> length r < length s.
Proof. intros H. apply PSuffix_length. eapply scanstring_PSuffix, H. Qed.

Lemma scan_once_length (n : nat) (s : pystr) (v : json) (r : pystr) :
  scan_once n s = Some (v, r) -> length r < length s.
Proof.
  intros H. apply PSuffix_length. apply (proj1 (scan_facts n)) in H. apply H.
Qed.

(** Collects what the hypotheses say on lengths, then [lia]. *)
Ltac lengths :=
  repeat match goal with
         | H : skip_ws _ = _ |- _ => apply skip_ws_eq_length in H
         | H : scanstring _ _ = Some _ |- _ => apply scanstring_length in H
         | H : scan_once _ _ = Some _ |- _ => apply scan_once_length in H
         end;
  repeat match goal with
         | H : context [skip_ws ?a] |- _ =>
             lazymatch goal with
             | _ : length (skip_ws a) <= length a |- _ => fail
             | _ => pose proof (skip_ws_length a)
             end
         | |- context [skip_ws ?a] =>
             lazymatch goal with
             | _ : length (skip_ws a) <= length a |- _ => fail
             | _ => pose proof (skip_ws_length a)
             end
         end;
  simpl length in *; lia.

Lemma scan_fuel (n : nat) :
  (forall s m, 2 * length s <= n -> 2 * length s <= m ->
               scan_once n s = scan_once m s)
  /\ (forall s pairs m, 2 * length s + 1 <= n -> 2 * length s + 1 <= m ->
                        object_loop n s pairs = object_loop m s pairs)
  /\ (forall s vs m, 2 * length s + 1 <= n -> 2 * length s + 1 <= m ->
                     array_loop n s vs = array_loop m s vs).
Proof.
  induction n as [|n (IHs & IHo & IHa)].
  - split; [|split]; intros; try lia.
    destruct s; [|simpl in *; lia]. destruct m; reflexivity.
  - split; [|split].
    + intros s m Hn Hm. destruct s as [|c t]; [destruct m; reflexivity|].
      destruct m as [|m]; [simpl in Hm; lia|].
      cbn [scan_once].
      destruct (char_eqb c dquote); [reflexivity|].
      destruct (is_chr c "{").
      { destruct (skip_ws t) as [|c1 t1] eqn:Ews; [reflexivity|].
        destruct (is_chr c1 "}"); [reflexivity|].
        destruct (char_eqb c1 dquote); [|reflexivity].
        apply IHo; lengths. }
      destruct (is_chr c "[").
      { destruct (skip_ws t) as [|c1 t1] eqn:Ews; [reflexivity|].
        destruct (is_chr c1 "]"); [reflexivity|].
        apply IHa; lengths. }
      reflexivity.
    + intros s pairs m Hn Hm.
      destruct m as [|m]; [lia|].
      cbn [object_loop].
      destruct (scanstring s []) as [[key s1]|] eqn:Ek; [|reflexivity].
      destruct (skip_ws s1) as [|c s2] eqn:E1; [reflexivity|].
      destruct (is_chr c ":"); [|reflexivity].
      rewrite (IHs (skip_ws s2) m) by lengths.
      destruct (scan_once m (skip_ws s2)) as [[value s3]|] eqn:Ev; [|reflexivity].
      destruct (skip_ws s3) as [|d s4] eqn:E3; [reflexivity|].
      destruct (is_chr d "}"); [reflexivity|].
      destruct (is_chr d ","); [|reflexivity].
      destruct (skip_ws s4) as [|q s5] eqn:E4; [reflexivity|].
      destruct (char_eqb q dquote); [|reflexivity].
      apply IHo; lengths.
    + intros s vs m Hn Hm.
      destruct m as [|m]; [lia|].
      cbn [array_loop].
      rewrite (IHs s m) by lia.
      destruct (scan_once m s) as [[v0 s1]|] eqn:Ev; [|reflexivity].
      destruct (skip_ws s1) as [|d s2] eqn:E1; [reflexivity|].
      destruct (is_chr d "]"); [reflexivity|].
      destruct (is_chr d ","); [|reflexivity].
      apply IHa; lengths.
Qed.

(** [loads] gives its scan enough fuel: more of it changes nothing. *)
Lemma scan_once_fuel_irrelevant (s : pystr) (n : nat) :
  loads_fuel s <= n -> scan_once n s = scan_once (loads_fuel s) s.
Proof.
  intros H. unfold loads_fuel in *. apply (proj1 (scan_fuel n)); lia.
Qed.

Lemma first_occurrence_le (c : char) (p' r' p x : pystr) :
  ~ In c p' -> p' ++ c :: r' = p ++ c :: x -> length p' <= length p.
Proof.
  intros Hp' E. apply app_eq_app in E. destruct E as [m [[E1 E2]|[E1 E2]]].
  - destruct m as [|y m].
    + rewrite app_nil_r in E1. subst. lia.
    + injection E2 as Ey _. exfalso. apply Hp'. rewrite E1.
      apply in_or_app. right. left. symmetry. exact Ey.
  - rewrite E1, length_app. lia.
Qed.

Lemma last_occurrence_ge (c : char) (l q' y q : pystr) :
  ~ In c q' -> l ++ c :: q' = y ++ c :: q -> length y <= length l.
Proof.
  intros Hq' E. apply app_eq_app in E. destruct E as [m [[E1 E2]|[E1 E2]]].
  - rewrite E1, length_app. lia.
  - destruct m as [|z m].
    + rewrite app_nil_r in E1. subst. lia.
    + injection E2 as Ez Eq. exfalso. apply Hq'. rewrite Eq.
      apply in_or_app. right. left. reflexivity.
Qed.

(** A [{] somewhere before a [}] is all line 140 asks for. *)
Lemma has_brace_pair_occurrence (p body q : pystr) :
  has_brace_pair (p ++ chr "{" :: body ++ chr "}" :: q) = true.
Proof.
  set (s := p ++ chr "{" :: body ++ chr "}" :: q).
  unfold has_brace_pair, find, rfind.
  destruct (find_from_spec (chr "{") s 0) as [[_ Hno]|(p' & r' & Es & Hp' & Ef)].
  { exfalso. apply Hno. unfold s. apply in_or_app. right. left. reflexivity. }
  destruct (rfind_from_spec (chr "}") s 0) as [[_ Hno]|(l & q' & El & Hq' & Er)].
  { exfalso. apply Hno. unfold s. apply in_or_app. right. right.
    apply in_or_app. right. left. reflexivity. }
  rewrite Ef, Er.
  assert (H1 : length p' <= length p).
  { apply (@first_occurrence_le (chr "{") p' r' p (body ++ chr "}" :: q) Hp').
    rewrite <- Es. reflexivity. }
  assert (H2 : length (p ++ chr "{" :: body) <= length l).
  { apply (@last_occurrence_ge (chr "}") l q' (p ++ chr "{" :: body) q Hq').
    rewrite <- El. unfold s. rewrite <- app_assoc. reflexivity. }
  rewrite length_app in H2. simpl length in H2.
  rewrite !andb_true_iff, !negb_true_iff, !Z.eqb_neq, Z.gtb_lt. lia.
Qed.

(** Text that decodes to an object has a [{] before a [}]. *)
Lemma loads_object_braces (s : pystr) (d : pydict) :
  loads s = Some (JObj d) -> has_brace_pair s = true.
Proof.
  unfold loads. intros H.
  destruct (startswith [65279%N] s); [discriminate|].
  destruct (scan_once (loads_fuel (skip_ws s)) (skip_ws s)) as [[v r]|] eqn:E;
    [|discriminate].
  destruct (skip_ws r); [|discriminate]. injection H as ->.
  apply (proj1 (scan_facts _)) in E. destruct E as [_ E].
  destruct (E d eq_refl) as [body Eb].
  destruct (skip_ws_Suffix s) as [w Ew]. rewrite Ew, Eb.
  apply has_brace_pair_occurrence.
Qed.

(** *** Stripping only removes text *)

Lemma Infix_refl (s : pystr) : Infix s s.
Proof. exists [], []. rewrite app_nil_r. reflexivity. Qed.

Lemma Infix_trans (a b c : pystr) : Infix a b -> Infix b c -> Infix a c.
Proof.
  intros (x & y & ->) (x' & y' & ->). exists (x' ++ x), (y ++ y').
  rewrite <- !app_assoc. reflexivity.
Qed.

Lemma lstrip_Suffix (s : pystr) : Suffix (lstrip s) s.
Proof.
  induction s as [|c s IH]; simpl.
  - apply Suffix_refl.
  - destruct (isspace c); [apply Suffix_cons, IH|apply Suffix_refl].
Qed.

Lemma Infix_lstrip (s : pystr) : Infix (lstrip s) s.
Proof.
  destruct (lstrip_Suffix s) as [c E]. exists c, []. rewrite app_nil_r. exact E.
Qed.

Lemma Infix_rstrip (s : pystr) : Infix (rstrip s) s.
Proof.
  unfold rstrip. destruct (lstrip_Suffix (rev s)) as [c E].
  exists [], (rev c). rewrite app_nil_l.
  rewrite <- rev_app_distr, <- E. symmetry. apply rev_involutive.
Qed.

Lemma Infix_strip (s : pystr) : Infix (strip s) s.
Proof. exact (Infix_trans (Infix_rstrip (lstrip s)) (Infix_lstrip s)). Qed.

Lemma Infix_slice_from (s : pystr) (n : nat) : Infix (slice_from s n) s.
Proof.
  exists (firstn n s), []. rewrite app_nil_r. symmetry. apply firstn_skipn.
Qed.

Lemma Infix_slice_drop_last (s : pystr) (n : nat) : Infix (slice_drop_last s n) s.
Proof.
  exists [], (skipn (length s - n) s). rewrite app_nil_l. symmetry.
  apply firstn_skipn.
Qed.

Lemma Infix_strip_fences (s : pystr) : Infix (strip_fences s) s.
Proof.
  unfold strip_fences.
  refine (Infix_trans (Infix_strip _) _).
  refine (Infix_trans _ (Infix_strip s)).
  set (t0 := strip s).
  set (t1 := if startswith (lit "```json") t0 then slice_from t0 7 else t0).
  set (t2 := if startswith (lit "```") t1 then slice_from t1 3 else t1).
  assert (H1 : Infix t1 t0).
  { unfold t1. destruct (startswith _ t0);
      [apply Infix_slice_from|apply Infix_refl]. }
  assert (H2 : Infix t2 t1).
  { unfold t2. destruct (startswith _ t1);
      [apply Infix_slice_from|apply Infix_refl]. }
  refine (Infix_trans _ (Infix_trans H2 H1)).
  destruct (endswith _ t2); [apply Infix_slice_drop_last|apply Infix_refl].
Qed.

Lemma has_brace_pair_Infix (a s : pystr) :
  Infix a s -> has_brace_pair a = true -> has_brace_pair s = true.
Proof.
  intros (x & y & ->) H. apply has_brace_pair_Framed in H.
  destruct H as (body & p & q & -> & _ & _). unfold framed.
  replace (x ++ (p ++ chr "{" :: body ++ chr "}" :: q) ++ y)
    with ((x ++ p) ++ chr "{" :: body ++ chr "}" :: (q ++ y)).
  - apply has_brace_pair_occurrence.
  - rewrite <- !app_assoc. simpl. rewrite <- !app_assoc. reflexivity.
Qed.

(** Where line 140 finds no pair, nothing decodes to an object: neither
    the text nor what is left of it without its fences. *)
Lemma no_pair_no_object (s : pystr) (d : pydict) :
  has_brace_pair s = false ->
  loads (json_candidate s) <> Some (JObj d)
  /\ loads (json_candidate (strip_fences s)) <> Some (JObj d).
Proof.
  intros Hno. split.
  - rewrite json_candidate_unfold, Hno. intros H.
    apply loads_object_braces in H. congruence.
  - assert (Hno' : has_brace_pair (strip_fences s) = false).
    { destruct (has_brace_pair (strip_fences s)) eqn:E; [|reflexivity].
      apply (has_brace_pair_Infix (Infix_strip_fences s)) in E. congruence. }
    rewrite json_candidate_unfold, Hno'. intros H.
    apply loads_object_braces in H. congruence.
Qed.

(* ===================================================================== *)
(** ** What each endpoint does with the backend's answer *)
(* ===================================================================== *)

#[local] Unset Implicit Arguments.

Section Runs.

Variable OLLAMA_MODEL : pystr.
Variable resumes : pystr -> option pystr.
Variable backend : Backend.

Lemma weekly_without_skills (request : WeeklyLearningTaskRequest)
  (log : list json) :
  missing_or_empty (wl_missing_skills request) = [] ->
  weekly_learning_task_generator OLLAMA_MODEL resumes backend request log
  = match resolve_resume resumes (wl_resume_id request) (wl_resume_text request)
            required_any
            log with
    | (Ok resume_text, log') =>
        match _extract_skills_from_resume OLLAMA_MODEL backend resume_text log' with
        | (Ok d, log'') =>
            (Ok (gap_result (dict_get d (lit "skills") (JArr [])) (JArr []) (JArr [])),
             log'')
        | (Raise e, log'') => (Raise e, log'')
        end
    | (Raise e, log') => (Raise e, log')
    end.
Proof.
  intros Hm. unfold weekly_learning_task_generator. rewrite Hm.
  cbn [truthy negb]. unfold_m.
  destruct (resolve_resume _ _ _ _ log) as [[t|e] log']; [|reflexivity].
  destruct (_extract_skills_from_resume _ _ t log') as [[d|e] log''];
    reflexivity.
Qed.

Lemma analyze_extract_raise (analysis_text : pystr) (e : exn) :
  analyze_extract analysis_text = Raise e -> e = Other NotAnObject.
Proof.
  unfold analyze_extract.
  destruct (loads (json_candidate (strip_fences analysis_text))) as [[]|];
    intros H; try discriminate H; injection H as <-; reflexivity.
Qed.

Lemma analyze_skills_answered (request : SkillAnalysisRequest)
  (log : list json) (resume_text completion : pystr) :
  resolve_resume resumes (sa_resume_id request) (sa_resume_text request)
    required_resume log = (Ok resume_text, log) ->
  answers backend log (analyze_body OLLAMA_MODEL resume_text) completion ->
  analyze_skills OLLAMA_MODEL resumes backend request log
  = (match analyze_extract completion with
     | Ok m => Ok m
     | Raise _ => Raise (HTTPException 500 (ErrorOf NotAnObject))
     end, log ++ [analyze_body OLLAMA_MODEL resume_text]).
Proof.
  intros Hres (txt & Hb & Hc). unfold analyze_skills.
  fold required_resume. unfold_m. rewrite Hres.
  fold (analyze_body OLLAMA_MODEL resume_text). rewrite Hb.
  cbn [status_code text Z.eqb Pos.eqb negb]. rewrite Hc.
  destruct (analyze_extract completion) as [m|e] eqn:E; [reflexivity|].
  apply analyze_extract_raise in E. subst e. reflexivity.
Qed.

Lemma all_str_map (skills : list pystr) : all_str (map JStr skills) = Some skills.
Proof.
  induction skills as [|x l IH]; [reflexivity|]. simpl. rewrite IH. reflexivity.
Qed.

Lemma append_fallbacks_list (l : list json) (skills : list pystr) :
  append_fallbacks (JArr l) skills = Ok (JArr (l ++ map fallback_group skills)).
Proof.
  revert l. induction skills as [|x skills IH]; intros l; simpl.
  - rewrite app_nil_r. reflexivity.
  - rewrite IH, <- app_assoc. reflexivity.
Qed.

Lemma backfill_empty (skills : list pystr) :
  backfill (JArr []) skills = Ok (JArr (map fallback_group skills)).
Proof. unfold backfill. simpl. apply append_fallbacks_list. Qed.

Lemma backfill_truthy (weekly_tasks : json) (skills : list pystr) :
  truthy weekly_tasks = true -> backfill weekly_tasks skills = Ok weekly_tasks.
Proof. intros H. unfold backfill. rewrite H. reflexivity. Qed.

Lemma backfill_raise (weekly_tasks : json) (skills : list pystr) (e : exn) :
  backfill weekly_tasks skills = Raise e -> e = Other AttributeError.
Proof.
  unfold backfill. destruct (truthy weekly_tasks); [discriminate|].
  destruct skills as [|x l]; [discriminate|]. simpl.
  destruct weekly_tasks; simpl; intros H; try (injection H as <-; reflexivity).
  rewrite append_fallbacks_list in H. discriminate.
Qed.

Lemma weekly_with_skills_answered (request : WeeklyLearningTaskRequest)
  (log : list json) (skills : list pystr) (completion : pystr) :
  missing_or_empty (wl_missing_skills request) = map JStr skills ->
  skills <> [] ->
  answers backend log (task_body OLLAMA_MODEL skills) completion ->
  weekly_learning_task_generator OLLAMA_MODEL resumes backend request log
  = (match backfill (field_or_default completion (lit "weekly_tasks") (JArr []))
             skills with
     | Ok weekly_tasks =>
         Ok (gap_result (JArr []) (JArr (map JStr skills)) weekly_tasks)
     | Raise _ => Raise (HTTPException 500 (ErrorOf AttributeError))
     end, log ++ [task_body OLLAMA_MODEL skills]).
Proof.
  intros Hms Hne (txt & Hb & Hc). unfold weekly_learning_task_generator.
  rewrite Hms.
  assert (Ht : truthy (JArr (map JStr skills)) = true)
    by (destruct skills; [contradiction|reflexivity]).
  rewrite Ht. cbn [negb]. unfold py_str_items, str_items.
  rewrite all_str_map. unfold_m.
  fold (task_body OLLAMA_MODEL skills). rewrite Hb.
  cbn [status_code text Z.eqb Pos.eqb negb]. rewrite Hc.
  destruct (backfill _ skills) as [wt|e] eqn:E; [reflexivity|].
  apply backfill_raise in E. subst e. reflexivity.
Qed.

Lemma gap_weekly_tasks_answered (log : list json) (skills : list pystr)
  (completion : pystr) :
  skills <> [] ->
  answers backend log (task_body OLLAMA_MODEL skills) completion ->
  gap_weekly_tasks OLLAMA_MODEL backend (JArr (map JStr skills)) log
  = (backfill (field_or_default completion (lit "weekly_tasks") (JArr [])) skills,
     log ++ [task_body OLLAMA_MODEL skills]).
Proof.
  intros Hne (txt & Hb & Hc). unfold gap_weekly_tasks.
  assert (Ht : truthy (JArr (map JStr skills)) = true)
    by (destruct skills; [contradiction|reflexivity]).
  rewrite Ht. unfold py_str_items, str_items. rewrite all_str_map. unfold_m.
  fold (task_body OLLAMA_MODEL skills). rewrite Hb.
  cbn [status_code text Z.eqb Pos.eqb]. rewrite Hc.
  destruct (backfill _ skills); reflexivity.
Qed.

Lemma gap_weekly_tasks_refused (log : list json) (skills : list pystr)
  (sc : Z) (txt : pystr) :
  skills <> [] ->
  backend log (task_body OLLAMA_MODEL skills) = Responded sc txt ->
  sc <> 200%Z ->
  gap_weekly_tasks OLLAMA_MODEL backend (JArr (map JStr skills)) log
  = (Ok (JArr (map fallback_group skills)),
     log ++ [task_body OLLAMA_MODEL skills]).
Proof.
  intros Hne Hb Hsc. unfold gap_weekly_tasks.
  assert (Ht : truthy (JArr (map JStr skills)) = true)
    by (destruct skills; [contradiction|reflexivity]).
  rewrite Ht. unfold py_str_items, str_items. rewrite all_str_map. unfold_m.
  fold (task_body OLLAMA_MODEL skills). rewrite Hb.
  cbn [status_code text]. apply Z.eqb_neq in Hsc. rewrite Hsc.
  rewrite backfill_empty. reflexivity.
Qed.

End Runs.

(* ===================================================================== *)
(** ** The claims *)
(* ===================================================================== *)

Section Claims.

Variable OLLAMA_MODEL : pystr.
Variable resumes : pystr -> option pystr.
Variable backend : Backend.


(** Claim C2, as the code has it.  For a non-empty missing-skills list of
    strings whose task-generation call is answered: when the model's
    [weekly_tasks] is the empty list (which is also what an undecodable
    completion, a non-object and an absent key give), the stage returns one
    group per skill, in the order of the list, each with the 7 fallback
    tasks; when the model's [weekly_tasks] is truthy, the stage returns it as
    it is, neither backfilled per skill nor truncated.  This holds in the
    weekly task generator and in the third call of the gap analysis, where
    an answer with another status than 200 gives the fallback groups as
    well. *)
Theorem task_stage_backfill (skills : list pystr) (log : list json) :
  skills <> [] ->
  let fallback := JArr (map fallback_group skills) in
  let missing_skills := JArr (map JStr skills) in
  (forall completion,
      answers backend log (task_body OLLAMA_MODEL skills) completion ->
      let model_tasks :=
        field_or_default completion (lit "weekly_tasks") (JArr []) in
      (forall request,
          missing_or_empty (wl_missing_skills request) = map JStr skills ->
          (model_tasks = JArr [] ->
           fst (weekly_learning_task_generator OLLAMA_MODEL resumes backend
                  request log)
           = Ok (gap_result (JArr []) missing_skills fallback))
          /\ (truthy model_tasks = true ->
              fst (weekly_learning_task_generator OLLAMA_MODEL resumes backend
                     request log)
              = Ok (gap_result (JArr []) missing_skills model_tasks)))
      /\ (model_tasks = JArr [] ->
          fst (gap_weekly_tasks OLLAMA_MODEL backend missing_skills log)
          = Ok fallback)
      /\ (truthy model_tasks = true ->
          fst (gap_weekly_tasks OLLAMA_MODEL backend missing_skills log)
          = Ok model_tasks))
  /\ (forall sc txt,
        backend log (task_body OLLAMA_MODEL skills) = Responded sc txt ->
        sc <> 200%Z ->
        fst (gap_weekly_tasks OLLAMA_MODEL backend missing_skills log)
        = Ok fallback)
  /\ length (map fallback_group skills) = length skills
  /\ forall skill,
       In skill skills ->
       In (JObj [(lit "skill", JStr skill);
                 (lit "tasks", JArr (map JStr (fallback_tasks skill)))])
          (map fallback_group skills)
       /\ length (fallback_tasks skill) = 7.
Proof.
  intros Hne fallback missing_skills.
  split; [|split; [|split]].
  - intros completion Hans model_tasks. split; [|split].
    + intros request Hms.
      rewrite (weekly_with_skills_answered OLLAMA_MODEL resumes backend request
                 log skills completion Hms Hne Hans).
      fold model_tasks. split.
      * intros ->. rewrite backfill_empty. reflexivity.
      * intros Ht. rewrite (backfill_truthy _ skills Ht). reflexivity.
    + intros E. unfold missing_skills.
      rewrite (gap_weekly_tasks_answered OLLAMA_MODEL backend log skills
                 completion Hne Hans).
      fold model_tasks. rewrite E. apply backfill_empty.
    + intros Ht. unfold missing_skills.
      rewrite (gap_weekly_tasks_answered OLLAMA_MODEL backend log skills
                 completion Hne Hans).
      fold model_tasks. apply backfill_truthy, Ht.
  - intros sc txt Hb Hsc. unfold missing_skills.
    rewrite (gap_weekly_tasks_refused OLLAMA_MODEL backend log skills sc txt
               Hne Hb Hsc).
    reflexivity.
  - apply length_map.
  - intros skill Hin. split; [|reflexivity].
    apply (in_map fallback_group) in Hin. exact Hin.
Qed.

(** Claim C3, as the code has it.  For a completion
    [pre ++ "{" ++ body ++ "}" ++ post] where [pre] holds no [{], [post] holds
    no [}] and [{body}] decodes to an object, the candidate that is parsed is
    [{body}], with and without the stripping of fences; every stage returns,
    for each requested field, the object's value when the field is present
    and the default when it is absent, and [analyze_skills] returns its
    three fields that way. *)
Theorem framed_object_recovered (pre body post : pystr) (d : pydict) :
  ~ In (chr "{") pre -> ~ In (chr "}") post ->
  loads (chr "{" :: body ++ [chr "}"]) = Some (JObj d) ->
  json_candidate (strip (framed pre body post)) = chr "{" :: body ++ [chr "}"]
  /\ json_candidate (strip_fences (strip (framed pre body post)))
     = chr "{" :: body ++ [chr "}"]
  /\ (forall field default,
        field_or_default (strip (framed pre body post)) field default
        = dict_get d field default)
  /\ analyze_extract (strip (framed pre body post)) = Ok (analysis_of d)
  /\ (forall field default v,
        dict_lookup d field = Some v -> dict_get d field default = v)
  /\ (forall field default,
        dict_lookup d field = None -> dict_get d field default = default).
Proof.
  intros Hpre Hpost Hd.
  assert (HF : Framed body (strip (framed pre body post))).
  { apply Framed_strip. exists pre, post. repeat split; assumption. }
  assert (E1 : json_candidate (strip (framed pre body post))
               = chr "{" :: body ++ [chr "}"])
    by exact (json_candidate_Framed HF).
  assert (E2 : json_candidate (strip_fences (strip (framed pre body post)))
               = chr "{" :: body ++ [chr "}"]).
  { rewrite (json_candidate_strip_fences HF). exact E1. }
  repeat split.
  - exact E1.
  - exact E2.
  - intros field default. unfold field_or_default, json_loads.
    rewrite E1, Hd. reflexivity.
  - unfold analyze_extract. rewrite E2, Hd. reflexivity.
  - intros field default v H. unfold dict_get. rewrite H. reflexivity.
  - intros field default H. unfold dict_get. rewrite H. reflexivity.
Qed.

(** Claim C4, as the code has it.  When every call to the backend fails to
    connect: [analyze_skills] and [skill_gap_analysis], on a resolved
    resume, and the weekly task generator, on a non-empty list of skills,
    answer 503 with the remediation detail; the weekly task generator on a
    resolved resume and no skills answers normally, with three empty
    lists, after its one failed call. *)
Theorem connection_refused_by_path (log : list json) :
  (forall l body, backend l body = Failed ConnectError) ->
  (forall request resume_text,
      resolve_resume resumes (sa_resume_id request) (sa_resume_text request)
        required_resume log = (Ok resume_text, log) ->
      fst (analyze_skills OLLAMA_MODEL resumes backend request log)
      = Raise service_unavailable)
  /\ (forall request resume_text,
        resolve_resume resumes (sg_resume_id request) (sg_resume_text request)
          required_resume log = (Ok resume_text, log) ->
        fst (skill_gap_analysis OLLAMA_MODEL resumes backend request log)
        = Raise service_unavailable)
  /\ (forall request skills,
        missing_or_empty (wl_missing_skills request) = map JStr skills ->
        skills <> [] ->
        fst (weekly_learning_task_generator OLLAMA_MODEL resumes backend request log)
        = Raise service_unavailable)
  /\ (forall request resume_text,
        missing_or_empty (wl_missing_skills request) = [] ->
        resolve_resume resumes (wl_resume_id request) (wl_resume_text request)
          required_any log = (Ok resume_text, log) ->
        weekly_learning_task_generator OLLAMA_MODEL resumes backend request log
        = (Ok (gap_result (JArr []) (JArr []) (JArr [])),
           log ++ [extract_body OLLAMA_MODEL resume_text])).
Proof.
  intros Hb.
  assert (Hx : forall t l,
             _extract_skills_from_resume OLLAMA_MODEL backend t l
             = (Ok no_skills, l ++ [extract_body OLLAMA_MODEL t])).
  { intros t l. unfold _extract_skills_from_resume. unfold_m.
    rewrite Hb. reflexivity. }
  split; [|split; [|split]].
  - intros request t Hres. unfold analyze_skills. fold required_resume.
    unfold_m. rewrite Hres, Hb. reflexivity.
  - intros request t Hres. unfold skill_gap_analysis. fold required_resume.
    unfold bind at 1. rewrite Hres. unfold bind at 1. rewrite Hx.
    cbv beta iota.
    change (dict_get no_skills (lit "skills") (JArr [])) with (JArr []).
    cbn [truthy]. unfold_m. rewrite Hb. reflexivity.
  - intros request skills Hms Hne. unfold weekly_learning_task_generator.
    rewrite Hms.
    assert (Ht : truthy (JArr (map JStr skills)) = true)
      by (destruct skills; [contradiction|reflexivity]).
    rewrite Ht. cbn [negb]. unfold py_str_items, str_items.
    rewrite all_str_map. unfold_m. rewrite Hb. reflexivity.
  - intros request t Hms Hres. rewrite weekly_without_skills by exact Hms.
    fold required_any. rewrite Hres, Hx. reflexivity.
Qed.

(** Claim C5, as the code has it.  On a text where a [{] comes before the
    last [}], the extraction of [analyze_skills] (which strips fences) and
    the extraction of the other stages (which does not) parse the same
    candidate.  Whenever the extraction of [analyze_skills] returns a
    mapping, each of its three fields has the value the other extraction
    computes for that field and default; whenever it raises, it raises the
    [ValueError] of line 148 and the other extraction returns the
    default. *)
Theorem extractors_agree_when_analysis_returns (analysis_text : pystr) :
  (has_brace_pair analysis_text = true ->
   json_candidate (strip_fences analysis_text) = json_candidate analysis_text)
  /\ (forall m,
        analyze_extract analysis_text = Ok (JObj m) ->
        dict_lookup m (lit "skills")
        = Some (field_or_default analysis_text (lit "skills") (JArr []))
        /\ dict_lookup m (lit "years_experience")
           = Some (field_or_default analysis_text (lit "years_experience") JNull)
        /\ dict_lookup m (lit "role_suggestions")
           = Some (field_or_default analysis_text (lit "role_suggestions") (JArr [])))
  /\ (forall e,
        analyze_extract analysis_text = Raise e ->
        e = Other NotAnObject
        /\ forall field default,
             field_or_default analysis_text field default = default).
Proof.
  assert (Hsame : has_brace_pair analysis_text = true ->
                  json_candidate (strip_fences analysis_text)
                  = json_candidate analysis_text).
  { intros H. apply has_brace_pair_Framed in H. destruct H as [body H].
    exact (json_candidate_strip_fences H). }
  split; [exact Hsame|].
  destruct (has_brace_pair analysis_text) eqn:Hp.
  - unfold analyze_extract, field_or_default, json_loads.
    rewrite (Hsame eq_refl).
    destruct (loads (json_candidate analysis_text)) as [v|].
    + destruct v; split; intros x H; try discriminate H;
        try (injection H as <-; repeat split; reflexivity).
    + split; intros x H; try discriminate H.
      injection H as <-. repeat split; reflexivity.
  - assert (Hplain : forall field default,
               field_or_default analysis_text field default = default).
    { intros field default. unfold field_or_default, json_loads.
      destruct (loads (json_candidate analysis_text)) as [w|] eqn:Ew;
        [|reflexivity].
      destruct w as [| | | | | | | |dw]; try reflexivity.
      destruct (proj1 (@no_pair_no_object analysis_text dw Hp) Ew). }
    unfold analyze_extract.
    destruct (loads (json_candidate (strip_fences analysis_text))) as [v|] eqn:Ev.
    + destruct v as [| | | | | | | |dv];
        try (split; intros x H; [discriminate H|];
             injection H as <-; split; [reflexivity|exact Hplain]).
      destruct (proj2 (@no_pair_no_object analysis_text dv Hp) Ev).
    + split; intros x H; [|discriminate H].
      injection H as <-. rewrite !Hplain. repeat split; reflexivity.
Qed.

(** Claim C6.  For every skill the fallback yields exactly 7 tasks, the
    seven fixed templates (study fundamentals, complete a tutorial, practice
    exercises, build a project, read documentation, join the community,
    build a portfolio piece) filled with the skill name and nothing else;
    being a function of the skill alone, it gives the same sequence for the
    same skill. *)
Theorem fallback_tasks_template (skill : pystr) :
  fallback_tasks skill
  = map (fun t => fst t ++ skill ++ snd t) fallback_templates
  /\ length (fallback_tasks skill) = 7
  /\ length fallback_templates = 7.
Proof.
  split; [|split; reflexivity].
  unfold fallback_tasks, fallback_templates, slice_to.
  cbn [map firstn fst snd]. rewrite !app_nil_r. reflexivity.
Qed.


(** Claim C8.  A request that carries neither a resume text nor a resume
    identifier (absent or empty) and, for the task generator, no missing
    skills either, is answered 400 by each of the three endpoints, and the
    log of backend requests is left as it was. *)
Theorem missing_input_rejected (rt rid jd : option pystr) (target_role : pystr)
  (ms : option (list json)) (log : list json) :
  opt_truthy rt = false -> opt_truthy rid = false -> missing_or_empty ms = [] ->
  analyze_skills OLLAMA_MODEL resumes backend
    {| sa_resume_text := rt; sa_resume_id := rid; sa_job_description := jd |} log
  = (Raise (HTTPException 400 (Detail required_resume)), log)
  /\ skill_gap_analysis OLLAMA_MODEL resumes backend
       {| sg_resume_text := rt; sg_resume_id := rid; sg_target_role := target_role |}
       log
     = (Raise (HTTPException 400 (Detail required_resume)), log)
  /\ weekly_learning_task_generator OLLAMA_MODEL resumes backend
       {| wl_resume_text := rt; wl_resume_id := rid; wl_missing_skills := ms |} log
     = (Raise (HTTPException 400 (Detail required_any)), log).
Proof.
  intros Ht Hid Hms. split; [|split].
  - unfold analyze_skills, bind. cbn [sa_resume_text sa_resume_id].
    rewrite resolve_resume_missing by assumption. reflexivity.
  - unfold skill_gap_analysis, bind. cbn [sg_resume_text sg_resume_id].
    rewrite resolve_resume_missing by assumption. reflexivity.
  - rewrite weekly_without_skills by exact Hms.
    cbn [wl_resume_text wl_resume_id].
    rewrite resolve_resume_missing by assumption. reflexivity.
Qed.

(** Claim C9.  Two runs of [analyze_skills] whose requests resolve to the
    same resume text, and whose backends give the same answer to the prompt
    for it, return the same result; and when that answer decodes to an
    object, the fields returned are the values of that object, the
    ["skills"] list as the backend gave it. *)
Theorem analyze_skills_deterministic (model : pystr)
  (resumes1 resumes2 : pystr -> option pystr) (backend1 backend2 : Backend)
  (request1 request2 : SkillAnalysisRequest) (log1 log2 : list json)
  (resume_text : pystr) :
  resolve_resume resumes1 (sa_resume_id request1) (sa_resume_text request1)
    required_resume log1 = (Ok resume_text, log1) ->
  resolve_resume resumes2 (sa_resume_id request2) (sa_resume_text request2)
    required_resume log2 = (Ok resume_text, log2) ->
  backend1 log1 (analyze_body model resume_text)
  = backend2 log2 (analyze_body model resume_text) ->
  fst (analyze_skills model resumes1 backend1 request1 log1)
  = fst (analyze_skills model resumes2 backend2 request2 log2)
  /\ forall completion d,
       answers backend1 log1 (analyze_body model resume_text) completion ->
       loads (json_candidate (strip_fences completion)) = Some (JObj d) ->
       fst (analyze_skills model resumes2 backend2 request2 log2)
       = Ok (analysis_of d).
Proof.
  intros H1 H2 Hb.
  assert (Hsame : fst (analyze_skills model resumes1 backend1 request1 log1)
                  = fst (analyze_skills model resumes2 backend2 request2 log2)).
  { unfold analyze_skills. fold required_resume. unfold_m.
    rewrite H1, H2. fold (analyze_body model resume_text). rewrite Hb.
    destruct (backend2 log2 (analyze_body model resume_text)) as [sc txt|e];
      [|destruct e; reflexivity].
    cbn [status_code text]. destruct (negb (sc =? 200)%Z); [reflexivity|].
    destruct (completion_text _) as [c|e]; [|destruct e as [? ?|[]]; reflexivity].
    destruct (analyze_extract c) as [m|e]; [reflexivity|].
    destruct e as [? ?|[]]; reflexivity. }
  split; [exact Hsame|].
  intros completion d Hans Hd. rewrite <- Hsame.
  rewrite (analyze_skills_answered model resumes1 backend1 request1 log1
             resume_text completion H1 Hans).
  unfold analyze_extract. rewrite Hd. reflexivity.
Qed.

(** Claim C10.  The weekly task generator runs the same on
    [missing_skills = []] as on an absent [missing_skills]; with no resume
    text and no identifier either, the request is answered 400 and nothing
    is sent to the backend. *)
Theorem empty_missing_skills_as_absent (rt rid : option pystr)
  (log : list json) :
  weekly_learning_task_generator OLLAMA_MODEL resumes backend
    {| wl_resume_text := rt; wl_resume_id := rid; wl_missing_skills := Some [] |}
    log
  = weekly_learning_task_generator OLLAMA_MODEL resumes backend
      {| wl_resume_text := rt; wl_resume_id := rid; wl_missing_skills := None |}
      log
  /\ (opt_truthy rt = false -> opt_truthy rid = false ->
      weekly_learning_task_generator OLLAMA_MODEL resumes backend
        {| wl_resume_text := rt; wl_resume_id := rid;
           wl_missing_skills := Some [] |} log
      = (Raise (HTTPException 400 (Detail required_any)), log)).
Proof.
  split.
  - rewrite !weekly_without_skills by reflexivity. reflexivity.
  - intros Ht Hid. rewrite weekly_without_skills by reflexivity.
    cbn [wl_resume_text wl_resume_id].
    rewrite resolve_resume_missing by assumption. reflexivity.
Qed.

End Claims.

(* ===================================================================== *)
(** ** Counterexamples and witnesses *)
(* ===================================================================== *)



(** Claim C2 as stated fails: two skills are asked for, the model answers
    one group of eight tasks, and the endpoint returns exactly that: one
    group, eight tasks, nothing for the second skill. *)
Lemma model_tasks_kept_verbatim :
  weekly_learning_task_generator (lit "llama3") no_resumes
    (always_answer eight_tasks_for_A) (weekly_skills [lit "A"; lit "B"]) []
  = (Ok (gap_result (JArr []) (JArr [JStr (lit "A"); JStr (lit "B")])
           (JArr [JObj [(lit "skill", JStr (lit "A"));
                        (lit "tasks",
                          JArr (map JStr [lit "1"; lit "2"; lit "3"; lit "4";
                                          lit "5"; lit "6"; lit "7"; lit "8"]))]])),
     [task_body (lit "llama3") [lit "A"; lit "B"]]).
Proof. vm_compute. reflexivity. Qed.

(** Claim C2, witness: the scenario of the specification, one skill and a
    completion that cannot be decoded. *)
Lemma task_stage_backfill_witness :
  fst (weekly_learning_task_generator (lit "llama3") no_resumes
         (always_answer (jlit "{'response': 'I cannot help with that.'}"))
         (weekly_skills [lit "Kubernetes"]) [])
  = Ok (gap_result (JArr []) (JArr [JStr (lit "Kubernetes")])
          (JArr [fallback_group (lit "Kubernetes")])).
Proof.
  destruct (task_stage_backfill (lit "llama3") no_resumes
              (always_answer (jlit "{'response': 'I cannot help with that.'}"))
              [lit "Kubernetes"] [])
    as [H _].
  - discriminate.
  - destruct (H (lit "I cannot help with that.")) as [H0 _].
    + eexists. split; [vm_compute; reflexivity|vm_compute; reflexivity].
    + destruct (H0 (weekly_skills [lit "Kubernetes"]) eq_refl) as [H1 _].
      apply H1. vm_compute. reflexivity.
Defined.

(** Claim C3 as stated fails when the prose holds a brace: this completion
    contains exactly one well-formed JSON object, yet the candidate starts at
    the [{] of the prose, does not decode, and both extractions return the
    defaults. *)
Lemma braces_in_prose_defeat_extraction :
  embedded_objects placeholder_then_object = [jlit "{'skills': ['Go']}"]
  /\ loads (jlit "{'skills': ['Go']}")
     = Some (JObj [(lit "skills", JArr [JStr (lit "Go")])])
  /\ json_candidate (strip placeholder_then_object)
     = jlit "{candidate}: {'skills': ['Go']}"
  /\ field_or_default (strip placeholder_then_object) (lit "skills") (JArr [])
     = JArr []
  /\ analyze_extract (strip placeholder_then_object)
     = Ok (JObj [(lit "skills", JArr []);
                 (lit "years_experience", JNull);
                 (lit "role_suggestions", JArr []);
                 (lit "error", JStr (lit "Failed to parse LLM response as JSON"));
                 (lit "raw_response", JStr placeholder_then_object)]).
Proof. vm_compute. repeat split. Qed.

(** Claim C3, witness: the prose scenario of the specification. *)
Lemma framed_object_recovered_witness :
  field_or_default
    (strip (framed (lit "Sure! Here's the data: ") (jlit "'missing_skills': ['Go']")
              (lit " Hope that helps.")))
    (lit "missing_skills") (JArr [])
  = JArr [JStr (lit "Go")].
Proof.
  destruct (framed_object_recovered (lit "Sure! Here's the data: ")
              (jlit "'missing_skills': ['Go']") (lit " Hope that helps.")
              [(lit "missing_skills", JArr [JStr (lit "Go")])])
    as (_ & _ & H & _).
  - cbv. intuition discriminate.
  - cbv. intuition discriminate.
  - vm_compute. reflexivity.
  - rewrite H. reflexivity.
Defined.

(** Claim C4 as stated fails: the weekly task generator, given a resume and
    no skills, makes one call, the call fails to connect, and the endpoint
    returns a normal result. *)
Lemma unreachable_backend_success :
  weekly_learning_task_generator (lit "llama3") no_resumes unreachable
    weekly_inline_resume []
  = (Ok (gap_result (JArr []) (JArr []) (JArr [])),
     [extract_body (lit "llama3") (lit "Python developer")])
  /\ unreachable [] (extract_body (lit "llama3") (lit "Python developer"))
     = Failed ConnectError.
Proof. vm_compute. split; reflexivity. Qed.

(** Claim C4, witness: the backend that refuses every connection. *)
Lemma connection_refused_by_path_witness :
  fst (analyze_skills (lit "llama3") no_resumes unreachable inline_resume [])
  = Raise service_unavailable
  /\ fst (weekly_learning_task_generator (lit "llama3") no_resumes unreachable
            (weekly_skills [lit "Go"]) [])
     = Raise service_unavailable.
Proof.
  destruct (connection_refused_by_path (lit "llama3") no_resumes unreachable [])
    as (H1 & _ & H3 & _).
  - reflexivity.
  - split.
    + apply (H1 inline_resume (lit "Python developer")). reflexivity.
    + apply (H3 (weekly_skills [lit "Go"]) [lit "Go"]);
        [reflexivity|discriminate].
Defined.

(** Claim C5 as stated fails: on a fenced JSON array the two extractions
    parse different candidates, the one of [analyze_skills] raises and the
    other returns the default. *)
Lemma fenced_array_splits_extractors :
  json_candidate (strip_fences (lit "```json [1, 2] ```")) = lit "[1, 2]"
  /\ json_candidate (lit "```json [1, 2] ```") = lit "```json [1, 2] ```"
  /\ analyze_extract (lit "```json [1, 2] ```") = Raise (Other NotAnObject)
  /\ field_or_default (lit "```json [1, 2] ```") (lit "skills") (JArr []) = JArr [].
Proof. vm_compute. repeat split. Qed.

(** Claim C5, witness: the fenced scenario of the specification, on one
    line. *)
Lemma extractors_agree_when_analysis_returns_witness :
  json_candidate (strip_fences (jlit "```json {'skills': ['Python','SQL']} ```"))
  = json_candidate (jlit "```json {'skills': ['Python','SQL']} ```")
  /\ dict_lookup
       [(lit "skills", JArr [JStr (lit "Python"); JStr (lit "SQL")]);
        (lit "years_experience", JNull);
        (lit "role_suggestions", JArr [])]
       (lit "skills")
     = Some (field_or_default (jlit "```json {'skills': ['Python','SQL']} ```")
               (lit "skills") (JArr [])).
Proof.
  destruct (extractors_agree_when_analysis_returns
              (jlit "```json {'skills': ['Python','SQL']} ```")) as (H1 & H2 & _).
  split.
  - apply H1. vm_compute. reflexivity.
  - apply H2. vm_compute. reflexivity.
Defined.


(** Claim C8, witness: an empty identifier and nothing else. *)
Lemma missing_input_rejected_witness :
  analyze_skills (lit "llama3") no_resumes unreachable
    {| sa_resume_text := None; sa_resume_id := Some []; sa_job_description := None |} []
  = (Raise (HTTPException 400 (Detail required_resume)), [])
  /\ skill_gap_analysis (lit "llama3") no_resumes unreachable
       {| sg_resume_text := None; sg_resume_id := Some [];
          sg_target_role := lit "Data Engineer" |} []
     = (Raise (HTTPException 400 (Detail required_resume)), [])
  /\ weekly_learning_task_generator (lit "llama3") no_resumes unreachable
       {| wl_resume_text := None; wl_resume_id := Some []; wl_missing_skills := None |} []
     = (Raise (HTTPException 400 (Detail required_any)), []).
Proof.
  apply (missing_input_rejected (lit "llama3") no_resumes unreachable
           None (Some []) None (lit "Data Engineer") None []);
    reflexivity.
Defined.

(** Claim C9, witness: one run by identifier and one with the text inline,
    against different logs; the repeated skill keeps its two places. *)
Lemma analyze_skills_deterministic_witness :
  fst (analyze_skills (lit "llama3") stored_resume (always_answer skills_in_order)
         by_identifier [])
  = fst (analyze_skills (lit "llama3") no_resumes (always_answer skills_in_order)
           inline_resume [JNull])
  /\ fst (analyze_skills (lit "llama3") no_resumes (always_answer skills_in_order)
            inline_resume [JNull])
     = Ok (analysis_of
             [(lit "skills",
               JArr [JStr (lit "SQL"); JStr (lit "Python"); JStr (lit "SQL")])]).
Proof.
  destruct (analyze_skills_deterministic (lit "llama3") stored_resume no_resumes
              (always_answer skills_in_order) (always_answer skills_in_order)
              by_identifier inline_resume [] [JNull] (lit "Python developer"))
    as [H1 H2]; try reflexivity.
  split; [exact H1|].
  apply (H2 (jlit "{'skills': ['SQL', 'Python', 'SQL']}")).
  - eexists. split; [vm_compute; reflexivity|vm_compute; reflexivity].
  - vm_compute. reflexivity.
Defined.

(** Claim C10, witness: a request that carries nothing but the empty
    list. *)
Lemma empty_missing_skills_as_absent_witness :
  weekly_learning_task_generator (lit "llama3") no_resumes unreachable
    {| wl_resume_text := None; wl_resume_id := None; wl_missing_skills := Some [] |} []
  = weekly_learning_task_generator (lit "llama3") no_resumes unreachable
      {| wl_resume_text := None; wl_resume_id := None; wl_missing_skills := None |} []
  /\ weekly_learning_task_generator (lit "llama3") no_resumes unreachable
       {| wl_resume_text := None; wl_resume_id := None; wl_missing_skills := Some [] |} []
     = (Raise (HTTPException 400 (Detail required_any)), []).
Proof.
  destruct (empty_missing_skills_as_absent (lit "llama3") no_resumes unreachable
              None None []) as [H1 H2].
  split; [exact H1|apply H2; reflexivity].
Defined.

(* ===================================================================== *)
(** ** Further properties of the service *)
(* ===================================================================== *)

(** *** The candidate and the fences *)

Lemma Infix_json_candidate (s : pystr) : Infix (json_candidate s) s.
Proof.
  rewrite json_candidate_unfold. destruct (has_brace_pair s); [|apply Infix_refl].
  unfold slice.
  set (a := Z.to_nat (find (chr "{") s)).
  set (n := Z.to_nat (rfind (chr "}") s + 1 - find (chr "{") s)).
  exists (firstn a s), (skipn n (skipn a s)).
  rewrite (firstn_skipn n (skipn a s)). symmetry. apply firstn_skipn.
Qed.

(** Extra X1.  The candidate of lines 137-143.  When a [{] stands before
    the last [}], the candidate is a block of the text that starts with the
    first [{] and ends with the last [}], with no [{] before it and no [}]
    after it; otherwise it is the whole text.  Taking the candidate of a
    candidate changes nothing, and the candidate parsed by [analyze_skills]
    is a block of the completion: stripping never adds a character. *)
Theorem json_candidate_shape (s : pystr) :
  (has_brace_pair s = true ->
   exists p body q,
     s = p ++ json_candidate s ++ q
     /\ json_candidate s = chr "{" :: body ++ [chr "}"]
     /\ ~ In (chr "{") p /\ ~ In (chr "}") q)
  /\ (has_brace_pair s = false -> json_candidate s = s)
  /\ json_candidate (json_candidate s) = json_candidate s
  /\ Infix (json_candidate (strip_fences s)) s.
Proof.
  assert (Hpair : has_brace_pair s = true ->
                  exists p body q,
                    s = p ++ json_candidate s ++ q
                    /\ json_candidate s = chr "{" :: body ++ [chr "}"]
                    /\ ~ In (chr "{") p /\ ~ In (chr "}") q).
  { intros H. apply has_brace_pair_Framed in H.
    destruct H as (body & p & q & -> & Hp & Hq).
    exists p, body, q. rewrite (json_candidate_framed p body q Hp Hq).
    repeat split; try assumption. apply framed_middle. }
  split; [exact Hpair|]. split; [|split].
  - intros H. rewrite json_candidate_unfold, H. reflexivity.
  - destruct (has_brace_pair s) eqn:E.
    + destruct (Hpair eq_refl) as (p & body & q & _ & -> & _).
      apply (json_candidate_framed [] body []); intros [].
    + assert (E' : json_candidate s = s)
        by (rewrite json_candidate_unfold, E; reflexivity).
      rewrite E'. exact E'.
  - exact (Infix_trans (Infix_json_candidate (strip_fences s))
             (Infix_strip_fences s)).
Qed.

(** Extra X1, witness: prose around an object, and braces in the wrong
    order. *)
Lemma json_candidate_shape_witness :
  json_candidate (jlit "Sure: {'a': 1} ok") = jlit "{'a': 1}"
  /\ json_candidate (lit "} no pair {") = lit "} no pair {".
Proof.
  destruct (json_candidate_shape (lit "} no pair {")) as (_ & H2 & _).
  split; [vm_compute; reflexivity|apply H2; vm_compute; reflexivity].
Defined.



Lemma lstrip_nonspace (c : char) (t : pystr) :
  isspace c = false -> lstrip (c :: t) = c :: t.
Proof. intros H. simpl. rewrite H. reflexivity. Qed.

Lemma strip_between (c d : char) (m : pystr) :
  isspace c = false -> isspace d = false ->
  strip (c :: m ++ [d]) = c :: m ++ [d].
Proof.
  intros Hc Hd. unfold strip. rewrite (lstrip_nonspace c _ Hc). unfold rstrip.
  change (c :: m ++ [d]) with ((c :: m) ++ [d]).
  rewrite rev_app_distr. cbn [rev app].
  rewrite (lstrip_nonspace d _ Hd).
  change (d :: rev m ++ [c]) with ([d] ++ rev (c :: m)).
  rewrite rev_app_distr, rev_involutive. reflexivity.
Qed.

Lemma startswith_app_same (p q x : pystr) :
  startswith (p ++ q) (p ++ x) = startswith q x.
Proof.
  induction p as [|c p IH]; [reflexivity|]. simpl.
  replace (char_eqb c c) with true by (symmetry; apply char_eqb_eq; reflexivity).
  exact IH.
Qed.

Lemma slice_drop_last_app (x suf : pystr) :
  slice_drop_last (x ++ suf) (length suf) = x.
Proof.
  unfold slice_drop_last. rewrite length_app, Nat.add_sub.
  rewrite firstn_app, firstn_all, Nat.sub_diag. simpl. apply app_nil_r.
Qed.

Lemma fence_tail (body : pystr) :
  (if endswith (lit "```") (body ++ lit "```")
   then slice_drop_last (body ++ lit "```") 3
   else body ++ lit "```") = body.
Proof.
  replace (endswith (lit "```") (body ++ lit "```")) with true.
  - exact (slice_drop_last_app body (lit "```")).
  - symmetry. apply endswith_app. exists body. reflexivity.
Qed.

Lemma strip_fenced (c d : char) (pre suf body : pystr) :
  isspace c = false -> isspace d = false ->
  strip ((c :: pre) ++ body ++ suf ++ [d]) = (c :: pre) ++ body ++ suf ++ [d].
Proof.
  intros Hc Hd.
  replace ((c :: pre) ++ body ++ suf ++ [d])
    with (c :: (pre ++ body ++ suf) ++ [d])
    by (simpl; rewrite <- !app_assoc; reflexivity).
  apply strip_between; assumption.
Qed.

(** Extra X3.  Lines 127-135 take a fenced text out of its fence:
    [```json body ```] gives [body] stripped, unless [body] itself starts
    with a fence; [``` body ```] gives [body] stripped, unless what follows
    the opening fence starts with [json]. *)
Theorem fenced_text_unwrapped (body : pystr) :
  (startswith (lit "```") (body ++ lit "```") = false ->
   strip_fences (lit "```json" ++ body ++ lit "```") = strip body)
  /\ (startswith (lit "json") (body ++ lit "```") = false ->
      strip_fences (lit "```" ++ body ++ lit "```") = strip body).
Proof.
  split; intros H; unfold strip_fences.
  - assert (E : strip (lit "```json" ++ body ++ lit "```")
                = lit "```json" ++ body ++ lit "```")
      by exact (strip_fenced (chr "`") (chr "`") (lit "``json") (lit "``") body
                  eq_refl eq_refl).
    rewrite E.
    replace (startswith (lit "```json") (lit "```json" ++ body ++ lit "```"))
      with true
      by (symmetry; apply startswith_app; eexists; reflexivity).
    change (slice_from (lit "```json" ++ body ++ lit "```") 7)
      with (skipn (length (lit "```json")) (lit "```json" ++ body ++ lit "```")).
    rewrite skipn_length_app, H, fence_tail. reflexivity.
  - assert (E : strip (lit "```" ++ body ++ lit "```")
                = lit "```" ++ body ++ lit "```")
      by exact (strip_fenced (chr "`") (chr "`") (lit "``") (lit "``") body
                  eq_refl eq_refl).
    rewrite E.
    assert (E2 : startswith (lit "```json") (lit "```" ++ body ++ lit "```")
                 = false)
      by exact (eq_trans (startswith_app_same (lit "```") (lit "json")
                            (body ++ lit "```")) H).
    rewrite E2.
    replace (startswith (lit "```") (lit "```" ++ body ++ lit "```"))
      with true
      by (symmetry; apply startswith_app; eexists; reflexivity).
    change (slice_from (lit "```" ++ body ++ lit "```") 3)
      with (skipn (length (lit "```")) (lit "```" ++ body ++ lit "```")).
    rewrite skipn_length_app, fence_tail. reflexivity.
Qed.

(** Extra X3, witness: the fenced scenario of the specification, with
    each of the two opening fences. *)
Lemma fenced_text_unwrapped_witness :
  strip_fences (lit "```json" ++ jlit " {'skills': ['Python','SQL']} " ++ lit "```")
  = jlit "{'skills': ['Python','SQL']}"
  /\ strip_fences (lit "```" ++ jlit " {'skills': ['Python','SQL']} " ++ lit "```")
     = jlit "{'skills': ['Python','SQL']}".
Proof.
  destruct (fenced_text_unwrapped (jlit " {'skills': ['Python','SQL']} "))
    as [H1 H2].
  split.
  - rewrite H1; vm_compute; reflexivity.
  - rewrite H2; vm_compute; reflexivity.
Defined.

(** Extra X14.  For every skill the seven fallback tasks are pairwise
    different, each of them contains the skill name, and the list tells the
    skill: two skills with the same tasks are the same. *)
Theorem fallback_tasks_tell_the_skill (skill : pystr) :
  NoDup (fallback_tasks skill)
  /\ (forall task, In task (fallback_tasks skill) -> Infix skill task)
  /\ (forall other, fallback_tasks skill = fallback_tasks other -> skill = other).
Proof.
  split; [|split].
  - unfold fallback_tasks, slice_to. cbn [firstn].
    repeat (constructor;
            [cbn [In]; intros H;
             repeat (destruct H as [H|H]; [vm_compute in H; discriminate H|]);
             exact H|]).
    constructor.
  - intros task H. unfold fallback_tasks, slice_to in H. cbn [firstn In] in H.
    repeat (destruct H as [<-|H];
            [first [eexists _, _; reflexivity
                   |eexists _, []; rewrite app_nil_r; reflexivity]|]).
    destruct H.
  - intros other H. unfold fallback_tasks, slice_to in H. cbn [firstn] in H.
    injection H as _ _ _ H4 _ _ _.
    exact H4.
Qed.


(** *** How many requests an endpoint sends *)

Section Budget.

Context {A B : Type}.

Lemma Sends_ret (a : A) : Sends 0 (ret a).
Proof. intros log. exists []. rewrite app_nil_r. split; [reflexivity|simpl; lia]. Qed.

Lemma Sends_raise (e : exn) : Sends 0 (@raise A e).
Proof. intros log. exists []. rewrite app_nil_r. split; [reflexivity|simpl; lia]. Qed.

Lemma Sends_lift (r : result A) : Sends 0 (lift r).
Proof. intros log. exists []. rewrite app_nil_r. split; [reflexivity|simpl; lia]. Qed.

Lemma Sends_weaken (j k : nat) (m : M A) : j <= k -> Sends j m -> Sends k m.
Proof.
  intros Hjk H log. destruct (H log) as (sent & E & Hl).
  exists sent. split; [exact E|lia].
Qed.

Lemma Sends_bind (j k : nat) (m : M A) (f : A -> M B) :
  Sends j m -> (forall a, Sends k (f a)) -> Sends (j + k) (bind m f).
Proof.
  intros Hm Hf log. unfold bind.
  destruct (Hm log) as (s1 & E1 & L1).
  destruct (m log) as [[a|e] log']; simpl in E1; subst log'.
  - destruct (Hf a (log ++ s1)) as (s2 & E2 & L2).
    exists (s1 ++ s2). rewrite E2, app_assoc, length_app. split; [reflexivity|lia].
  - exists s1. split; [reflexivity|lia].
Qed.

Lemma Sends_try_with (j k : nat) (m : M A) (h : exn -> M A) :
  Sends j m -> (forall e, Sends k (h e)) -> Sends (j + k) (try_with m h).
Proof.
  intros Hm Hh log. unfold try_with.
  destruct (Hm log) as (s1 & E1 & L1).
  destruct (m log) as [[a|e] log']; simpl in E1; subst log'.
  - exists s1. split; [reflexivity|lia].
  - destruct (Hh e (log ++ s1)) as (s2 & E2 & L2).
    exists (s1 ++ s2). rewrite E2, app_assoc, length_app. split; [reflexivity|lia].
Qed.

Lemma Sends_if (k : nat) (b : bool) (m1 m2 : M A) :
  Sends k m1 -> Sends k m2 -> Sends k (if b then m1 else m2).
Proof. destruct b; auto. Qed.

Lemma Sends_surface_errors (e : exn) : Sends 0 (@surface_errors A e).
Proof. destruct e as [sc d|[]]; apply Sends_raise. Qed.

End Budget.

Lemma Sends_post (backend : Backend) (body : json) : Sends 1 (post backend body).
Proof.
  intros log. exists [body]. unfold post.
  destruct (backend log body); split; simpl; try reflexivity; lia.
Qed.

Section BudgetOfEndpoints.

Variable OLLAMA_MODEL : pystr.
Variable resumes : pystr -> option pystr.
Variable backend : Backend.

Lemma Sends_resolve_resume (rid rt : option pystr) (required : pystr) :
  Sends 0 (resolve_resume resumes rid rt required).
Proof.
  unfold resolve_resume. apply Sends_if.
  - destruct rid as [r|]; [destruct (resumes r)|];
      first [apply Sends_ret|apply Sends_raise].
  - apply Sends_if; [destruct rt; apply Sends_ret|apply Sends_raise].
Qed.

Lemma Sends_extract (resume_text : pystr) :
  Sends 1 (_extract_skills_from_resume OLLAMA_MODEL backend resume_text).
Proof.
  unfold _extract_skills_from_resume.
  apply (Sends_try_with 1 0); [|intros e; apply Sends_ret].
  apply (Sends_bind 1 0); [apply Sends_post|]. intros response.
  apply Sends_if; [apply Sends_ret|].
  apply (Sends_bind 0 0); [apply Sends_lift|]. intros c. apply Sends_ret.
Qed.

Lemma Sends_gap_weekly_tasks (missing_skills : json) :
  Sends 1 (gap_weekly_tasks OLLAMA_MODEL backend missing_skills).
Proof.
  unfold gap_weekly_tasks.
  apply Sends_if; [|apply (Sends_weaken 0 1); [lia|apply Sends_ret]].
  apply (Sends_bind 0 1); [apply Sends_lift|]. intros skills.
  apply (Sends_bind 1 0); [apply Sends_post|]. intros task_response.
  apply (Sends_bind 0 0); [|intros wt; apply Sends_lift].
  apply Sends_if; [|apply Sends_ret].
  apply (Sends_bind 0 0); [apply Sends_lift|]. intros c. apply Sends_ret.
Qed.

(** Extra X4.  Every endpoint only adds to the log of requests, and adds
    at most one request ([analyze_skills], the weekly task generator) or at
    most three ([skill_gap_analysis]), whatever the request, the store and
    the backend are. *)
Theorem request_budget :
  (forall request, Sends 1 (analyze_skills OLLAMA_MODEL resumes backend request))
  /\ (forall request,
        Sends 3 (skill_gap_analysis OLLAMA_MODEL resumes backend request))
  /\ (forall request,
        Sends 1 (weekly_learning_task_generator OLLAMA_MODEL resumes backend
                   request)).
Proof.
  split; [|split]; intros request.
  - unfold analyze_skills.
    apply (Sends_bind 0 1); [apply Sends_resolve_resume|]. intros t.
    apply (Sends_try_with 1 0); [|intros e; apply Sends_surface_errors].
    apply (Sends_bind 1 0); [apply Sends_post|]. intros response.
    apply Sends_if; [apply Sends_raise|].
    apply (Sends_bind 0 0); [apply Sends_lift|]. intros c. apply Sends_lift.
  - unfold skill_gap_analysis.
    apply (Sends_bind 0 3); [apply Sends_resolve_resume|]. intros t.
    apply (Sends_bind 1 2); [apply Sends_extract|]. intros d.
    apply (Sends_bind 0 2); [apply Sends_lift|]. intros listed.
    apply (Sends_try_with 2 0); [|intros e; apply Sends_surface_errors].
    apply (Sends_bind 1 1); [apply Sends_post|]. intros response.
    apply Sends_if; [apply (Sends_weaken 0 1); [lia|apply Sends_raise]|].
    apply (Sends_bind 0 1); [apply Sends_lift|]. intros c.
    apply (Sends_bind 1 0); [apply Sends_gap_weekly_tasks|]. intros wt.
    apply Sends_ret.
  - unfold weekly_learning_task_generator.
    destruct (negb (truthy (JArr (missing_or_empty (wl_missing_skills request)))))
      eqn:E.
    + apply (Sends_bind 1 0); [|intros x; apply Sends_ret].
      apply (Sends_bind 0 1); [apply Sends_resolve_resume|]. intros t.
      apply (Sends_bind 1 0); [apply Sends_extract|]. intros d. apply Sends_ret.
    + apply (Sends_bind 0 1); [apply Sends_ret|]. intros x.
      apply (Sends_bind 0 1); [apply Sends_lift|]. intros skills.
      apply (Sends_try_with 1 0); [|intros e; apply Sends_surface_errors].
      apply (Sends_bind 1 0); [apply Sends_post|]. intros response.
      apply Sends_if; [apply Sends_raise|].
      apply (Sends_bind 0 0); [apply Sends_lift|]. intros c.
      apply (Sends_bind 0 0); [apply Sends_lift|]. intros wt. apply Sends_ret.
Qed.

End BudgetOfEndpoints.

(** *** What an endpoint raises *)

Section Raising.

Context {A B : Type}.









End Raising.





Section RaisingOfEndpoints.

Variable OLLAMA_MODEL : pystr.
Variable resumes : pystr -> option pystr.
Variable backend : Backend.





End RaisingOfEndpoints.


(** *** Edge cases of the endpoints *)

Lemma bind_congr {A B : Type} (m m' : M A) (k : A -> M B) (log : list json) :
  m log = m' log -> bind m k log = bind m' k log.
Proof. intros E. unfold bind. rewrite E. reflexivity. Qed.

Section More.

Variable OLLAMA_MODEL : pystr.
Variable resumes : pystr -> option pystr.
Variable backend : Backend.

Lemma resolve_by_id (rid : pystr) (rt : option pystr) (required : pystr)
  (log : list json) :
  rid <> [] ->
  resolve_resume resumes (Some rid) rt required log
  = match resumes rid with
    | Some stored => (Ok stored, log)
    | None => (Raise not_found, log)
    end.
Proof.
  intros Hne. unfold resolve_resume.
  destruct rid as [|c r]; [contradiction|]. cbn [opt_truthy].
  destruct (resumes (c :: r)); reflexivity.
Qed.

(** Extra X6.  A non-empty [resume_id] takes precedence over
    [resume_text]: the three endpoints run the same whatever text comes with
    it, and when no resume is stored under the identifier they answer 404
    without sending a request, even if a text was supplied (for the task
    generator: when it was given no skills). *)
Theorem resume_id_takes_precedence (rid : pystr) (rt rt' jd : option pystr)
  (target_role : pystr) (ms : option (list json)) (log : list json) :
  rid <> [] ->
  (analyze_skills OLLAMA_MODEL resumes backend
     {| sa_resume_text := rt; sa_resume_id := Some rid; sa_job_description := jd |}
     log
   = analyze_skills OLLAMA_MODEL resumes backend
       {| sa_resume_text := rt'; sa_resume_id := Some rid;
          sa_job_description := jd |} log
   /\ skill_gap_analysis OLLAMA_MODEL resumes backend
        {| sg_resume_text := rt; sg_resume_id := Some rid;
           sg_target_role := target_role |} log
      = skill_gap_analysis OLLAMA_MODEL resumes backend
          {| sg_resume_text := rt'; sg_resume_id := Some rid;
             sg_target_role := target_role |} log
   /\ weekly_learning_task_generator OLLAMA_MODEL resumes backend
        {| wl_resume_text := rt; wl_resume_id := Some rid;
           wl_missing_skills := ms |} log
      = weekly_learning_task_generator OLLAMA_MODEL resumes backend
          {| wl_resume_text := rt'; wl_resume_id := Some rid;
             wl_missing_skills := ms |} log)
  /\ (resumes rid = None ->
      analyze_skills OLLAMA_MODEL resumes backend
        {| sa_resume_text := rt; sa_resume_id := Some rid;
           sa_job_description := jd |} log
      = (Raise not_found, log)
      /\ skill_gap_analysis OLLAMA_MODEL resumes backend
           {| sg_resume_text := rt; sg_resume_id := Some rid;
              sg_target_role := target_role |} log
         = (Raise not_found, log)
      /\ (missing_or_empty ms = [] ->
          weekly_learning_task_generator OLLAMA_MODEL resumes backend
            {| wl_resume_text := rt; wl_resume_id := Some rid;
               wl_missing_skills := ms |} log
          = (Raise not_found, log))).
Proof.
  intros Hne. split; [split; [|split]|].
  - unfold analyze_skills. cbn [sa_resume_text sa_resume_id].
    apply bind_congr. rewrite !(resolve_by_id rid _ _ log Hne). reflexivity.
  - unfold skill_gap_analysis.
    cbn [sg_resume_text sg_resume_id sg_target_role].
    apply bind_congr. rewrite !(resolve_by_id rid _ _ log Hne). reflexivity.
  - unfold weekly_learning_task_generator. cbn [wl_resume_text wl_resume_id
      wl_missing_skills].
    destruct (negb (truthy (JArr (missing_or_empty ms)))); [|reflexivity].
    apply bind_congr. apply bind_congr.
    rewrite !(resolve_by_id rid _ _ log Hne). reflexivity.
  - intros Hnone. split; [|split].
    + unfold analyze_skills, bind. cbn [sa_resume_text sa_resume_id].
      rewrite (resolve_by_id rid _ _ log Hne), Hnone. reflexivity.
    + unfold skill_gap_analysis, bind. cbn [sg_resume_text sg_resume_id].
      rewrite (resolve_by_id rid _ _ log Hne), Hnone. reflexivity.
    + intros Hms. unfold weekly_learning_task_generator.
      cbn [wl_resume_text wl_resume_id wl_missing_skills]. rewrite Hms.
      cbn [truthy negb]. unfold bind.
      rewrite (resolve_by_id rid _ _ log Hne), Hnone. reflexivity.
Qed.

(** Extra X7.  With a non-empty [missing_skills], the weekly task
    generator never looks at the resume: its run is the same for every
    [resume_text], [resume_id] and store (an unknown identifier gives no
    404), and whenever it returns, [extracted_skills] is [[]],
    [missing_skills] is the list of the request, and [weekly_tasks] is not
    empty. *)
Theorem explicit_skills_skip_the_resume
  (resumes' : pystr -> option pystr) (rt rid rt' rid' : option pystr)
  (ms : option (list json)) (log : list json) :
  missing_or_empty ms <> [] ->
  weekly_learning_task_generator OLLAMA_MODEL resumes backend
    {| wl_resume_text := rt; wl_resume_id := rid; wl_missing_skills := ms |} log
  = weekly_learning_task_generator OLLAMA_MODEL resumes' backend
      {| wl_resume_text := rt'; wl_resume_id := rid'; wl_missing_skills := ms |}
      log
  /\ forall answer,
       fst (weekly_learning_task_generator OLLAMA_MODEL resumes backend
              {| wl_resume_text := rt; wl_resume_id := rid;
                 wl_missing_skills := ms |} log)
       = Ok answer ->
       exists weekly_tasks,
         answer = gap_result (JArr []) (JArr (missing_or_empty ms)) weekly_tasks
         /\ truthy weekly_tasks = true.
Proof.
  intros Hne.
  assert (Ht : truthy (JArr (missing_or_empty ms)) = true)
    by (destruct (missing_or_empty ms); [contradiction|reflexivity]).
  split.
  - unfold weekly_learning_task_generator. cbn [wl_missing_skills].
    rewrite Ht. reflexivity.
  - intros answer. unfold weekly_learning_task_generator.
    cbn [wl_missing_skills]. rewrite Ht. cbn [negb]. unfold_m.
    destruct (py_str_items (JArr (missing_or_empty ms))) as [skills|e] eqn:Es;
      [|discriminate].
    destruct (backend log _) as [sc txt|pe]; cbn [status_code text].
    2:{ destruct pe; discriminate. }
    destruct (negb (sc =? 200)%Z); [discriminate|].
    destruct (completion_text _) as [c|e]; [|destruct e as [? ?|[]]; discriminate].
    destruct (backfill (field_or_default c (lit "weekly_tasks") (JArr [])) skills)
      as [wt|e] eqn:Eb; [|destruct e as [? ?|[]]; discriminate].
    cbn [fst]. intros H. injection H as <-. exists wt. split; [reflexivity|].
    unfold backfill in Eb.
    destruct (truthy (field_or_default c (lit "weekly_tasks") (JArr []))) eqn:Et.
    + injection Eb as <-. exact Et.
    + cbn [negb] in Eb.
      assert (Hs : skills <> []).
      { unfold py_str_items, str_items in Es.
        destruct (missing_or_empty ms) as [|x l]; [contradiction|].
        destruct (all_str (x :: l)) as [r|] eqn:Ea; [|discriminate].
        injection Es as <-. simpl in Ea. destruct x; try discriminate.
        destruct (all_str l); [injection Ea as <-|]; discriminate. }
      destruct skills as [|s0 rest]; [contradiction|].
      simpl in Eb.
      destruct (field_or_default c (lit "weekly_tasks") (JArr []));
        try discriminate Eb.
      simpl in Eb. rewrite append_fallbacks_list in Eb. injection Eb as <-.
      destruct items; reflexivity.
Qed.


Lemma backfill_falsy_non_list (weekly_tasks : json) (skills : list pystr) :
  truthy weekly_tasks = false -> (forall l, weekly_tasks <> JArr l) ->
  skills <> [] ->
  backfill weekly_tasks skills = Raise (Other AttributeError).
Proof.
  intros Ht Hl Hs. unfold backfill. rewrite Ht. cbn [negb].
  destruct skills as [|x rest]; [contradiction|]. simpl.
  destruct weekly_tasks; try reflexivity. destruct (Hl items eq_refl).
Qed.

(** Extra X8.  When the model's [weekly_tasks] is falsy without being a
    list ([null], [0], [false], an empty string or dict), the loop of lines
    441-454 calls [append] on it: the weekly task generator answers 500, and
    the third call of the gap analysis raises [AttributeError] into the
    handlers of its endpoint. *)
Theorem falsy_non_list_tasks_raise (skills : list pystr) (log : list json)
  (completion : pystr) :
  skills <> [] ->
  answers backend log (task_body OLLAMA_MODEL skills) completion ->
  truthy (field_or_default completion (lit "weekly_tasks") (JArr [])) = false ->
  (forall l, field_or_default completion (lit "weekly_tasks") (JArr []) <> JArr l) ->
  (forall request,
      missing_or_empty (wl_missing_skills request) = map JStr skills ->
      fst (weekly_learning_task_generator OLLAMA_MODEL resumes backend request log)
      = Raise (HTTPException 500 (ErrorOf AttributeError)))
  /\ fst (gap_weekly_tasks OLLAMA_MODEL backend (JArr (map JStr skills)) log)
     = Raise (Other AttributeError).
Proof.
  intros Hne Hans Ht Hl. split.
  - intros request Hms.
    rewrite (weekly_with_skills_answered OLLAMA_MODEL resumes backend request log
               skills completion Hms Hne Hans).
    rewrite (backfill_falsy_non_list _ skills Ht Hl Hne). reflexivity.
  - rewrite (gap_weekly_tasks_answered OLLAMA_MODEL backend log skills completion
               Hne Hans).
    exact (backfill_falsy_non_list _ skills Ht Hl Hne).
Qed.

(** Extra X9.  The [join] of line 395 stands before the [try]: a
    non-empty [missing_skills] with an item that is not a string makes the
    weekly task generator raise a bare [TypeError] with nothing sent.  The
    [join] of line 244 does too: extracted skills that are truthy and cannot
    be joined make [skill_gap_analysis] raise a bare [TypeError] after its
    one extraction request.  The [join] of line 292 is inside the [try]:
    there the [TypeError] is raised before the third request is sent. *)
Theorem join_before_the_try_raises_type_error :
  (forall request log,
      missing_or_empty (wl_missing_skills request) <> [] ->
      all_str (missing_or_empty (wl_missing_skills request)) = None ->
      weekly_learning_task_generator OLLAMA_MODEL resumes backend request log
      = (Raise (Other TypeError), log))
  /\ (forall request log resume_text d log',
        resolve_resume resumes (sg_resume_id request) (sg_resume_text request)
          required_resume log = (Ok resume_text, log) ->
        _extract_skills_from_resume OLLAMA_MODEL backend resume_text log
        = (Ok d, log') ->
        truthy (dict_get d (lit "skills") (JArr [])) = true ->
        str_items (dict_get d (lit "skills") (JArr [])) = None ->
        skill_gap_analysis OLLAMA_MODEL resumes backend request log
        = (Raise (Other TypeError), log'))
  /\ (forall missing_skills log,
        truthy missing_skills = true -> str_items missing_skills = None ->
        gap_weekly_tasks OLLAMA_MODEL backend missing_skills log
        = (Raise (Other TypeError), log)).
Proof.
  split; [|split].
  - intros request log Hne Hall. unfold weekly_learning_task_generator.
    assert (Ht : truthy (JArr (missing_or_empty (wl_missing_skills request)))
                 = true)
      by (destruct (missing_or_empty _); [contradiction|reflexivity]).
    rewrite Ht. cbn [negb]. unfold py_str_items, str_items. rewrite Hall.
    reflexivity.
  - intros request log t d log' Hres Hx Ht Hs. unfold skill_gap_analysis.
    unfold bind at 1. rewrite Hres. unfold bind at 1. rewrite Hx.
    cbv beta iota. rewrite Ht. unfold py_join. rewrite Hs. reflexivity.
  - intros ms log Ht Hs. unfold gap_weekly_tasks. rewrite Ht.
    unfold py_str_items. rewrite Hs. reflexivity.
Qed.

Lemma analyze_extract_empty : analyze_extract [] = Ok (degraded []).
Proof. vm_compute. reflexivity. Qed.

(** Extra X10.  When the backend answers 200 with a JSON object that has
    no ["response"] key, the completion is the empty string and
    [analyze_skills] returns the defaults with the error note and an empty
    [raw_response], as a normal result. *)
Theorem missing_response_key_degrades (request : SkillAnalysisRequest)
  (log : list json) (resume_text txt : pystr) (d : pydict) :
  resolve_resume resumes (sa_resume_id request) (sa_resume_text request)
    required_resume log = (Ok resume_text, log) ->
  backend log (analyze_body OLLAMA_MODEL resume_text) = Responded 200 txt ->
  loads txt = Some (JObj d) ->
  dict_lookup d (lit "response") = None ->
  analyze_skills OLLAMA_MODEL resumes backend request log
  = (Ok (degraded []), log ++ [analyze_body OLLAMA_MODEL resume_text]).
Proof.
  intros Hres Hb Hd Hk.
  assert (Hans : answers backend log (analyze_body OLLAMA_MODEL resume_text) []).
  { exists txt. split; [exact Hb|].
    unfold completion_text, json_loads. cbn [text]. rewrite Hd.
    unfold py_get, dict_get. rewrite Hk. reflexivity. }
  rewrite (analyze_skills_answered OLLAMA_MODEL resumes backend request log
             resume_text [] Hres Hans).
  rewrite analyze_extract_empty. reflexivity.
Qed.

End More.



(** *** The calls of the gap analysis *)

Section Chain.

Variable OLLAMA_MODEL : pystr.
Variable resumes : pystr -> option pystr.
Variable backend : Backend.

Lemma extract_answered (resume_text completion : pystr) (log : list json) :
  answers backend log (extract_body OLLAMA_MODEL resume_text) completion ->
  _extract_skills_from_resume OLLAMA_MODEL backend resume_text log
  = (Ok [(lit "skills", field_or_default completion (lit "skills") (JArr []))],
     log ++ [extract_body OLLAMA_MODEL resume_text]).
Proof.
  intros (txt & Hb & Hc). unfold _extract_skills_from_resume. unfold_m.
  fold (extract_body OLLAMA_MODEL resume_text). rewrite Hb.
  cbn [status_code text Z.eqb Pos.eqb negb]. rewrite Hc. reflexivity.
Qed.

Lemma extract_failed (resume_text : pystr) (log : list json) (e : pyerror) :
  backend log (extract_body OLLAMA_MODEL resume_text) = Failed e ->
  _extract_skills_from_resume OLLAMA_MODEL backend resume_text log
  = (Ok no_skills, log ++ [extract_body OLLAMA_MODEL resume_text]).
Proof.
  intros Hb. unfold _extract_skills_from_resume. unfold_m.
  fold (extract_body OLLAMA_MODEL resume_text). rewrite Hb. reflexivity.
Qed.

Lemma skill_gap_after_extraction (request : SkillGapAnalysisRequest)
  (log log1 : list json) (resume_text listed completion : pystr) (d : pydict) :
  resolve_resume resumes (sg_resume_id request) (sg_resume_text request)
    required_resume log = (Ok resume_text, log) ->
  _extract_skills_from_resume OLLAMA_MODEL backend resume_text log = (Ok d, log1) ->
  (if truthy (dict_get d (lit "skills") (JArr []))
   then py_join (lit ", ") (dict_get d (lit "skills") (JArr []))
   else Ok (lit "None listed")) = Ok listed ->
  answers backend log1 (gap_body OLLAMA_MODEL listed (sg_target_role request))
    completion ->
  skill_gap_analysis OLLAMA_MODEL resumes backend request log
  = match gap_weekly_tasks OLLAMA_MODEL backend
            (field_or_default completion (lit "missing_skills") (JArr []))
            (log1 ++ [gap_body OLLAMA_MODEL listed (sg_target_role request)]) with
    | (Ok weekly_tasks, l) =>
        (Ok (gap_result (dict_get d (lit "skills") (JArr []))
               (field_or_default completion (lit "missing_skills") (JArr []))
               weekly_tasks), l)
    | (Raise e, l) => surface_errors e l
    end.
Proof.
  intros Hres Hx Hl (txt & Hb & Hc). unfold skill_gap_analysis.
  unfold bind at 1. rewrite Hres. unfold bind at 1. rewrite Hx.
  cbv beta iota. unfold bind at 1, lift at 1. rewrite Hl.
  unfold try_with, bind at 1, generate, post.
  fold (gap_body OLLAMA_MODEL listed (sg_target_role request)). rewrite Hb.
  cbn [status_code text Z.eqb Pos.eqb negb].
  unfold bind at 1, lift at 1. rewrite Hc. unfold bind, ret.
  destruct (gap_weekly_tasks _ _ _ _) as [[wt|e] l]; reflexivity.
Qed.

(** Extra X12.  The three calls of [skill_gap_analysis] feed one another:
    the skills decoded from the first completion are joined into the second
    prompt, the missing skills decoded from the second completion are joined
    into the third prompt, and the answer carries both lists with the
    model's tasks; the log gains the three requests in that order. *)
Theorem gap_analysis_chain (request : SkillGapAnalysisRequest) (log : list json)
  (resume_text c1 c2 c3 : pystr) (skills missing : list pystr) :
  resolve_resume resumes (sg_resume_id request) (sg_resume_text request)
    required_resume log = (Ok resume_text, log) ->
  answers backend log (extract_body OLLAMA_MODEL resume_text) c1 ->
  field_or_default c1 (lit "skills") (JArr []) = JArr (map JStr skills) ->
  skills <> [] ->
  answers backend (log ++ [extract_body OLLAMA_MODEL resume_text])
    (gap_body OLLAMA_MODEL (join (lit ", ") skills) (sg_target_role request)) c2 ->
  field_or_default c2 (lit "missing_skills") (JArr []) = JArr (map JStr missing) ->
  missing <> [] ->
  answers backend
    ((log ++ [extract_body OLLAMA_MODEL resume_text])
     ++ [gap_body OLLAMA_MODEL (join (lit ", ") skills) (sg_target_role request)])
    (task_body OLLAMA_MODEL missing) c3 ->
  truthy (field_or_default c3 (lit "weekly_tasks") (JArr [])) = true ->
  skill_gap_analysis OLLAMA_MODEL resumes backend request log
  = (Ok (gap_result (JArr (map JStr skills)) (JArr (map JStr missing))
           (field_or_default c3 (lit "weekly_tasks") (JArr []))),
     log ++ [extract_body OLLAMA_MODEL resume_text;
             gap_body OLLAMA_MODEL (join (lit ", ") skills)
               (sg_target_role request);
             task_body OLLAMA_MODEL missing]).
Proof.
  intros Hres H1 Es Hs H2 Em Hm H3 Ht.
  rewrite (skill_gap_after_extraction request log _ resume_text
             (join (lit ", ") skills) c2 _ Hres
             (extract_answered resume_text c1 log H1)).
  - rewrite Em.
    rewrite (gap_weekly_tasks_answered OLLAMA_MODEL backend _ missing c3 Hm H3).
    rewrite (backfill_truthy _ missing Ht).
    unfold dict_get. cbn [dict_lookup]. 
    replace (pystr_eqb (lit "skills") (lit "skills")) with true by reflexivity.
    rewrite Es, <- !app_assoc. reflexivity.
  - unfold dict_get. cbn [dict_lookup].
    replace (pystr_eqb (lit "skills") (lit "skills")) with true by reflexivity.
    rewrite Es.
    replace (truthy (JArr (map JStr skills))) with true
      by (destruct skills; [contradiction|reflexivity]).
    unfold py_join, str_items. rewrite all_str_map. reflexivity.
  - unfold dict_get. cbn [dict_lookup].
    replace (pystr_eqb (lit "skills") (lit "skills")) with true by reflexivity.
    exact H2.
Qed.

(** Extra X13.  A failed extraction call does not abort the gap analysis:
    the second prompt is sent with [None listed] for the skills, and when
    the missing skills it yields are falsy the endpoint returns them as they
    are, with empty extracted skills and tasks, after two requests. *)
Theorem gap_analysis_survives_failed_extraction
  (request : SkillGapAnalysisRequest) (log : list json)
  (resume_text completion : pystr) (e : pyerror) :
  resolve_resume resumes (sg_resume_id request) (sg_resume_text request)
    required_resume log = (Ok resume_text, log) ->
  backend log (extract_body OLLAMA_MODEL resume_text) = Failed e ->
  answers backend (log ++ [extract_body OLLAMA_MODEL resume_text])
    (gap_body OLLAMA_MODEL (lit "None listed") (sg_target_role request))
    completion ->
  truthy (field_or_default completion (lit "missing_skills") (JArr [])) = false ->
  skill_gap_analysis OLLAMA_MODEL resumes backend request log
  = (Ok (gap_result (JArr [])
           (field_or_default completion (lit "missing_skills") (JArr []))
           (JArr [])),
     log ++ [extract_body OLLAMA_MODEL resume_text;
             gap_body OLLAMA_MODEL (lit "None listed") (sg_target_role request)]).
Proof.
  intros Hres Hb Hans Ht.
  rewrite (skill_gap_after_extraction request log _ resume_text
             (lit "None listed") completion _ Hres
             (extract_failed resume_text log e Hb) eq_refl Hans).
  unfold gap_weekly_tasks. rewrite Ht. unfold ret.
  rewrite <- !app_assoc. reflexivity.
Qed.

End Chain.

(** Extra X12, witness: a backend that plays three answers. *)
Lemma gap_analysis_chain_witness :
  skill_gap_analysis (lit "llama3") no_resumes (scripted three_answers)
    gap_request []
  = (Ok (gap_result (JArr [JStr (lit "Python"); JStr (lit "SQL")])
           (JArr [JStr (lit "Spark")])
           (JArr [JObj [(lit "skill", JStr (lit "Spark"));
                        (lit "tasks", JArr [JStr (lit "Read the guide")])]])),
     [extract_body (lit "llama3") (lit "Python developer");
      gap_body (lit "llama3") (lit "Python, SQL") (lit "Data Engineer");
      task_body (lit "llama3") [lit "Spark"]]).
Proof.
  refine (eq_trans
            (gap_analysis_chain (lit "llama3") no_resumes (scripted three_answers)
               gap_request [] (lit "Python developer")
               (jlit "{'skills': ['Python', 'SQL']}")
               (jlit "Missing: {'missing_skills': ['Spark']}")
               (jlit "{'weekly_tasks': [{'skill': 'Spark', 'tasks': ['Read the guide']}]}")
               [lit "Python"; lit "SQL"] [lit "Spark"]
               _ _ _ _ _ _ _ _ _) _).
  - reflexivity.
  - eexists. split; [vm_compute; reflexivity|vm_compute; reflexivity].
  - vm_compute. reflexivity.
  - discriminate.
  - eexists. split; [vm_compute; reflexivity|vm_compute; reflexivity].
  - vm_compute. reflexivity.
  - discriminate.
  - eexists. split; [vm_compute; reflexivity|vm_compute; reflexivity].
  - vm_compute. reflexivity.
  - vm_compute. reflexivity.
Defined.

(** Extra X13, witness: the first call is refused and the second answers
    [missing_skills: null], which the endpoint returns as [None]. *)
Lemma gap_analysis_survives_failed_extraction_witness :
  skill_gap_analysis (lit "llama3") no_resumes
    (first_call_refused (jlit "{'response': '{\'missing_skills\': null}'}"))
    gap_request []
  = (Ok (gap_result (JArr []) JNull (JArr [])),
     [extract_body (lit "llama3") (lit "Python developer");
      gap_body (lit "llama3") (lit "None listed") (lit "Data Engineer")]).
Proof.
  refine (eq_trans
            (gap_analysis_survives_failed_extraction (lit "llama3") no_resumes
               (first_call_refused (jlit "{'response': '{\'missing_skills\': null}'}"))
               gap_request [] (lit "Python developer")
               (jlit "{'missing_skills': null}") ConnectError _ _ _ _) _).
  - reflexivity.
  - reflexivity.
  - eexists. split; [vm_compute; reflexivity|vm_compute; reflexivity].
  - vm_compute. reflexivity.
  - vm_compute. reflexivity.
Defined.


(** *** Witnesses of the edge cases *)

(** Extra X6, witness: an unknown identifier next to an inline text. *)
Lemma resume_id_takes_precedence_witness :
  analyze_skills (lit "llama3") no_resumes unreachable
    {| sa_resume_text := Some (lit "Python developer");
       sa_resume_id := Some (lit "r-404");
       sa_job_description := None |} []
  = (Raise not_found, []).
Proof.
  destruct (resume_id_takes_precedence (lit "llama3") no_resumes unreachable
              (lit "r-404") (Some (lit "Python developer")) None None
              (lit "Data Engineer") None []) as [_ H].
  - discriminate.
  - destruct H as [H _]; [reflexivity|exact H].
Defined.

(** Extra X7, witness: an unknown identifier next to one skill. *)
Lemma explicit_skills_skip_the_resume_witness :
  weekly_learning_task_generator (lit "llama3") no_resumes unreachable
    {| wl_resume_text := None; wl_resume_id := Some (lit "r-404");
       wl_missing_skills := Some [JStr (lit "Go")] |} []
  = weekly_learning_task_generator (lit "llama3") stored_resume unreachable
      {| wl_resume_text := None; wl_resume_id := None;
         wl_missing_skills := Some [JStr (lit "Go")] |} [].
Proof.
  destruct (explicit_skills_skip_the_resume (lit "llama3") no_resumes unreachable
              stored_resume None (Some (lit "r-404")) None None
              (Some [JStr (lit "Go")]) []) as [H _].
  - discriminate.
  - exact H.
Defined.

(** Extra X8, witness: the model answers [weekly_tasks: null]. *)
Lemma falsy_non_list_tasks_raise_witness :
  fst (weekly_learning_task_generator (lit "llama3") no_resumes
         (always_answer (jlit "{'response': '{\'weekly_tasks\': null}'}"))
         (weekly_skills [lit "Kubernetes"]) [])
  = Raise (HTTPException 500 (ErrorOf AttributeError)).
Proof.
  destruct (falsy_non_list_tasks_raise (lit "llama3") no_resumes
              (always_answer (jlit "{'response': '{\'weekly_tasks\': null}'}"))
              [lit "Kubernetes"] [] (jlit "{'weekly_tasks': null}")) as [H _].
  - discriminate.
  - eexists. split; [vm_compute; reflexivity|vm_compute; reflexivity].
  - vm_compute. reflexivity.
  - intros l. vm_compute. discriminate.
  - apply (H (weekly_skills [lit "Kubernetes"])). reflexivity.
Defined.

(** Extra X9, witness: the request carries the number 1 as a skill. *)
Lemma join_before_the_try_raises_type_error_witness :
  weekly_learning_task_generator (lit "llama3") no_resumes unreachable
    {| wl_resume_text := None; wl_resume_id := None;
       wl_missing_skills := Some [JInt 1] |} []
  = (Raise (Other TypeError), []).
Proof.
  destruct (join_before_the_try_raises_type_error (lit "llama3") no_resumes
              unreachable) as [H _].
  apply H; [discriminate|reflexivity].
Defined.

(** Extra X10, witness: the backend answers the empty object. *)
Lemma missing_response_key_degrades_witness :
  analyze_skills (lit "llama3") no_resumes (always_answer (lit "{}"))
    inline_resume []
  = (Ok (degraded []), [analyze_body (lit "llama3") (lit "Python developer")]).
Proof.
  apply (missing_response_key_degrades (lit "llama3") no_resumes
           (always_answer (lit "{}")) inline_resume [] (lit "Python developer")
           (lit "{}") []); reflexivity.
Defined.

